(** * Slack bot listeners: a shallow embedding of the handlers

    The handlers of [src/listeners] are short asynchronous functions that
    receive one inbound record (a message event, a mention, a slash
    command, a button click, a shortcut) and talk to the Slack platform
    through the Bolt helpers [ack], [say] and the Web API [client].

    Embedding:
    - JavaScript strings are [string]s holding the UTF-8 bytes of the
      text; [includes] follows [String.prototype.includes], and
      [toLowerCase] follows [String.prototype.toLowerCase] on every letter
      whose lower-case form has an ASCII letter, which is all the
      handlers' keyword tests can read.
    - an optional property ([text], [subtype], [bot_id], [real_name] ...)
      is an [option]; JavaScript truthiness of such a property is [truthy].
    - every awaited call goes through a small state-and-exception monad
      [Async]: the state is the trace of calls issued so far (each with the
      platform's verdict) and the lines written with [console.error]; the
      platform itself is an oracle that sees the history and either answers
      or rejects (the awaited promise rejects, i.e. the call throws).
    - [try { ... } catch (error) { ... }] is [try_catch]. *)

From Stdlib Require Import String Ascii List Bool Arith ZArith Lia.
From Stdlib Require Import Numbers.DecimalString Permutation.
Import ListNotations.
Local Open Scope string_scope.
Local Open Scope bool_scope.

Set Implicit Arguments.

(* ------------------------------------------------------------------ *)
(** ** JavaScript values used by the handlers *)

Module Js.

(** [c.toLowerCase()] for one code unit of the ASCII range. *)
Definition lower_ascii (c : ascii) : ascii :=
  let n := nat_of_ascii c in
  if ((65 <=? n)%nat && (n <=? 90)%nat) then ascii_of_nat (n + 32) else c.

(** A byte below 128, that is an ASCII character. *)
Definition plain (c : ascii) : bool :=
  match c with Ascii _ _ _ _ _ _ _ b7 => negb b7 end.

Fixpoint all_plain (s : string) : bool :=
  match s with
  | EmptyString => true
  | String c s' => plain c && all_plain s'
  end.

(** The UTF-8 bytes of U+212A KELVIN SIGN (E2 84 AA), whose lower-case form
    is the letter k. *)
Definition is_kelvin (c1 c2 c3 : ascii) : bool :=
  Ascii.eqb c1 "226"%char && Ascii.eqb c2 "132"%char &&
  Ascii.eqb c3 "170"%char.

(** The UTF-8 bytes of U+0130 LATIN CAPITAL LETTER I WITH DOT ABOVE
    (C4 B0), whose lower-case form is the letter i followed by U+0307. *)
Definition is_dotted_I (c1 c2 : ascii) : bool :=
  Ascii.eqb c1 "196"%char && Ascii.eqb c2 "176"%char.

(** The UTF-8 bytes of U+0307 COMBINING DOT ABOVE (CC 87). *)
Definition dot_above : string :=
  String "204"%char (String "135"%char EmptyString).

(** [s.toLowerCase()].  The letters A-Z are mapped to a-z, U+212A to k and
    U+0130 to i followed by U+0307: these are all the characters whose
    lower-case form contains an ASCII character.  Every other character
    outside ASCII has a lower-case form outside ASCII as well; its bytes are
    kept as they are, which no test against an ASCII keyword can tell from
    the bytes of its lower-case form. *)
Fixpoint toLowerCase (s : string) : string :=
  match s with
  | EmptyString => EmptyString
  | String c1 s1 =>
      match s1 with
      | String c2 s2 =>
          if is_dotted_I c1 c2
          then String "i" (dot_above ++ toLowerCase s2)
          else
            match s2 with
            | String c3 s3 =>
                if is_kelvin c1 c2 c3
                then String "k" (toLowerCase s3)
                else String (lower_ascii c1) (toLowerCase s1)
            | EmptyString => String (lower_ascii c1) (toLowerCase s1)
            end
      | EmptyString => String (lower_ascii c1) (toLowerCase s1)
      end
  end.

(** [s.startsWith(p)] *)
Fixpoint startsWith (s p : string) {struct p} : bool :=
  match p, s with
  | EmptyString, _ => true
  | String _ _, EmptyString => false
  | String a p', String b s' => Ascii.eqb a b && startsWith s' p'
  end.

(** [s.includes(sub)]: [sub] occurs at some position of [s]. *)
Fixpoint includes (s sub : string) : bool :=
  startsWith s sub ||
  match s with
  | EmptyString => false
  | String _ s' => includes s' sub
  end.

(** Truthiness of an optional string property: [undefined] and the
    empty string are falsy. *)
Definition truthy (v : option string) : bool :=
  match v with
  | Some (String _ _) => true
  | _ => false
  end.

(** [a || b] where [a] is an optional string and [b] a string. *)
Definition or_else (a : option string) (b : string) : string :=
  match a with
  | Some (String c s) => String c s
  | _ => b
  end.

(** [a || b] on two optional strings. *)
Definition or_opt (a b : option string) : option string :=
  if truthy a then a else b.

(** Truthiness of an optional boolean ([channel?.is_im]). *)
Definition truthy_bool (v : option bool) : bool :=
  match v with
  | Some true => true
  | _ => false
  end.

(** [`${n}`] for an integer. *)
Definition of_Z (n : Z) : string := NilEmpty.string_of_int (Z.to_int n).

(** [`${v}`] for an optional string: [undefined] prints as such. *)
Definition show (v : option string) : string :=
  match v with
  | Some s => s
  | None => "undefined"
  end.

(** [`${n}`] for an optional integer. *)
Definition show_Z (n : option Z) : string :=
  match n with
  | Some z => of_Z z
  | None => "undefined"
  end.

Definition nl : string := String (ascii_of_nat 10) EmptyString.
Definition dquote : string := String (ascii_of_nat 34) EmptyString.

End Js.

(* ------------------------------------------------------------------ *)
(** ** Block Kit payloads *)

Inductive TextObject : Type :=
| mrkdwn (text : string)
| plain_text (text : string).

Record OptionObject : Type := mkOption {
  option_text : TextObject;
  option_value : string
}.

Inductive Element : Type :=
| plain_text_input (action_id : string) (multiline : bool)
                   (placeholder : TextObject)
| static_select (action_id : string) (placeholder : TextObject)
                (options : list OptionObject)
| users_select (action_id : string) (placeholder : TextObject)
| button (text : TextObject) (action_id : string)
         (value : option string) (style : option string).

Inductive Block : Type :=
| section (text : TextObject)
| section_fields (fields : list TextObject)
| context (elements : list TextObject)
| header (text : TextObject)
| divider
| actions (elements : list Element)
| input (block_id : string) (label : TextObject) (element : Element)
        (optional : bool).

Record View : Type := mkView {
  callback_id : option string;
  title : TextObject;
  submit : option TextObject;
  close : option TextObject;
  view_blocks : list Block
}.

(** The argument of [say] / [chat.postMessage] (without the channel). *)
Record SayArguments : Type := mkSay {
  say_text : option string;
  say_blocks : list Block;
  thread_ts : option string
}.

Definition text_of (t : TextObject) : string :=
  match t with mrkdwn s => s | plain_text s => s end.

Definition element_texts (e : Element) : list string :=
  match e with
  | plain_text_input _ _ p => [text_of p]
  | static_select _ p os =>
      text_of p :: map (fun o => text_of (option_text o)) os
  | users_select _ p => [text_of p]
  | button t _ _ _ => [text_of t]
  end.

Definition block_texts (b : Block) : list string :=
  match b with
  | section t => [text_of t]
  | section_fields fs => map text_of fs
  | context es => map text_of es
  | header t => [text_of t]
  | divider => []
  | actions es => flat_map element_texts es
  | input _ l e _ => text_of l :: element_texts e
  end.

(** All the text a posted message shows. *)
Definition message_texts (m : SayArguments) : list string :=
  match say_text m with Some t => [t] | None => [] end
  ++ flat_map block_texts (say_blocks m).

(** The message content contains [sub] somewhere. *)
Definition content_includes (m : SayArguments) (sub : string) : bool :=
  existsb (fun t => Js.includes t sub) (message_texts m).

(* ------------------------------------------------------------------ *)
(** ** The platform: calls, answers, traces *)

Inductive ApiCall : Type :=
| Ack
| UsersInfo (user : string)
| ConversationsInfo (channel : string)
| ChatPostMessage (channel : string) (message : SayArguments)
| ReactionsAdd (channel name timestamp : string)
| ViewsOpen (trigger_id : string) (view : View)
| ConversationsInfoUndefined
| ConversationsMembers (channel : option string)
| ChatPostEphemeral (channel : option string) (user : string)
                    (blocks : list Block).

Record User : Type := mkUser {
  real_name : option string;
  user_name : option string
}.

Record Channel : Type := mkChannel {
  is_im : option bool;
  channel_name : option string;
  created : option Z;
  purpose_value : option string;      (* channel.purpose?.value *)
  topic_value : option string         (* channel.topic?.value *)
}.

(** One entry of the trace: the call and whether the platform accepted it. *)
Definition Issued : Type := (ApiCall * bool)%type.

Record World : Type := mkWorld {
  trace : list Issued;          (* oldest first *)
  console : list string;        (* console.error lines, oldest first *)
  clock_reads : nat             (* number of Date.now() reads so far *)
}.

Definition world0 : World := mkWorld [] [] 0.

(** The platform decides every call from the history of earlier calls.
    [None] / [false] is a rejection: the awaited promise rejects. *)
Record Platform : Type := mkPlatform {
  on_ack : list Issued -> bool;
  on_users_info : list Issued -> string -> option (option User);
  on_conversations_info : list Issued -> string -> option (option Channel);
  on_chat_postMessage : list Issued -> string -> SayArguments -> bool;
  on_reactions_add : list Issued -> string -> string -> string -> bool;
  on_views_open : list Issued -> string -> View -> bool;
  now : nat -> Z;
  on_conversations_info_undefined : list Issued -> option (option Channel);
  on_conversations_members :
    list Issued -> option string -> option (option (list string));
  on_chat_postEphemeral :
    list Issued -> option string -> string -> list Block -> bool;
  toLocaleDateString : Z -> string
}.

(** The value caught by [catch (error)]: the call that was rejected. *)
Inductive Error : Type := Rejected (call : ApiCall).

Inductive Result (A : Type) : Type :=
| Ok (value : A)
| Throw (error : Error).
Arguments Throw {A} error.

Definition Async (A : Type) : Type :=
  Platform -> World -> World * Result A.

Definition ret {A} (a : A) : Async A := fun _ w => (w, Ok a).

Definition bind {A B} (m : Async A) (k : A -> Async B) : Async B :=
  fun p w =>
    match m p w with
    | (w', Ok a) => k a p w'
    | (w', Throw e) => (w', Throw e)
    end.

Notation "x <- m ;; k" := (bind m (fun x => k))
  (at level 61, m at next level, right associativity).
Notation "m ;;; k" := (bind m (fun _ => k))
  (at level 61, right associativity).

(** [try { body } catch (error) { handler }] *)
Definition try_catch {A} (body : Async A) (handler : Error -> Async A)
  : Async A :=
  fun p w =>
    match body p w with
    | (w', Ok a) => (w', Ok a)
    | (w', Throw e) => handler e p w'
    end.

Definition record (c : ApiCall) (ok : bool) (w : World) : World :=
  mkWorld (trace w ++ [(c, ok)]) (console w) (clock_reads w).

(** Issue a call that carries no answer. *)
Definition call_unit (c : ApiCall) (verdict : Platform -> list Issued -> bool)
  : Async unit :=
  fun p w =>
    if verdict p (trace w)
    then (record c true w, Ok tt)
    else (record c false w, Throw (Rejected c)).

(** Issue a call that carries an answer. *)
Definition call_value {A} (c : ApiCall)
    (answer : Platform -> list Issued -> option A) : Async A :=
  fun p w =>
    match answer p (trace w) with
    | Some a => (record c true w, Ok a)
    | None => (record c false w, Throw (Rejected c))
    end.

(** [console.error(line, error)] *)
Definition console_error (line : string) : Async unit :=
  fun _ w => (mkWorld (trace w) (console w ++ [line]) (clock_reads w), Ok tt).

(** [new Date(ms).toLocaleDateString()]: the answer depends on the locale
    and time zone of the process. *)
Definition Date_toLocaleDateString (ms : Z) : Async string :=
  fun p w => (w, Ok (toLocaleDateString p ms)).

(** [Date.now()] *)
Definition Date_now : Async Z :=
  fun p w =>
    (mkWorld (trace w) (console w) (S (clock_reads w)),
     Ok (now p (clock_reads w))).

Definition run {A} (m : Async A) (p : Platform) : World * Result A :=
  m p world0.

(** *** The Bolt helpers and the Web API client *)

Definition ack : Async unit := call_unit Ack (fun p h => on_ack p h).

Module client.
Definition users_info (user : string) : Async (option User) :=
  call_value (UsersInfo user) (fun p h => on_users_info p h user).

Definition conversations_info (channel : string) : Async (option Channel) :=
  call_value (ConversationsInfo channel)
             (fun p h => on_conversations_info p h channel).

Definition chat_postMessage (channel : string) (m : SayArguments)
  : Async unit :=
  call_unit (ChatPostMessage channel m)
            (fun p h => on_chat_postMessage p h channel m).

Definition reactions_add (channel name timestamp : string) : Async unit :=
  call_unit (ReactionsAdd channel name timestamp)
            (fun p h => on_reactions_add p h channel name timestamp).

Definition views_open (trigger_id : string) (view : View) : Async unit :=
  call_unit (ViewsOpen trigger_id view)
            (fun p h => on_views_open p h trigger_id view).

(** [conversations.info({ channel })] where [channel] may be [undefined]. *)
Definition conversations_info_of (channel : option string)
  : Async (option Channel) :=
  match channel with
  | Some c => conversations_info c
  | None => call_value ConversationsInfoUndefined
                       (fun p h => on_conversations_info_undefined p h)
  end.

(** [conversations.members({ channel })]; the answer is its [members]. *)
Definition conversations_members (channel : option string)
  : Async (option (list string)) :=
  call_value (ConversationsMembers channel)
             (fun p h => on_conversations_members p h channel).

Definition chat_postEphemeral (channel : option string) (user : string)
    (blocks : list Block) : Async unit :=
  call_unit (ChatPostEphemeral channel user blocks)
            (fun p h => on_chat_postEphemeral p h channel user blocks).
End client.

(** Bolt builds [say] for the listener from the channel of the inbound
    record: [say(m)] is [chat.postMessage({ channel, ...m })], and
    [say("text")] is [chat.postMessage({ channel, text })]. *)
Definition say (channel : string) (m : SayArguments) : Async unit :=
  client.chat_postMessage channel m.

Definition say_string (channel : string) (text : string) : Async unit :=
  say channel (mkSay (Some text) [] None).

(* ------------------------------------------------------------------ *)
(** ** listeners/events/message.ts *)

Record MessageEvent : Type := mkMessageEvent {
  msg_text : option string;
  msg_subtype : option string;
  msg_bot_id : option string;
  msg_channel : string;
  msg_user : string;
  msg_ts : string
}.

(** [channelInfo.channel?.is_im] *)
Definition channel_is_im (channelInfo : option Channel) : bool :=
  match channelInfo with
  | Some c => Js.truthy_bool (is_im c)
  | None => false
  end.

Definition dm_greeting (user : string) : string :=
  "Hello <@" ++ user ++ ">! 👋 How can I assist you today?".

Definition dm_help : string :=
  "I can help you with various tasks! Try these commands:" ++ Js.nl ++
  "• `/hello` - Get a greeting" ++ Js.nl ++
  "• `/ping` - Check bot status" ++ Js.nl ++
  "• `/help` - See all commands" ++ Js.nl ++ Js.nl ++
  "You can also just chat with me here in DM!".

Definition dm_how_are_you : string :=
  "I'm doing great! Thanks for asking. How can I help you today? 🤖".

Definition keywords : list string :=
  ["urgent"; "emergency"; "important"; "asap"].

(** [keywords.some(keyword => event.text?.toLowerCase().includes(keyword) || false)] *)
Definition hasKeyword (text : string) : bool :=
  existsb (fun keyword => Js.includes (Js.toLowerCase text) keyword) keywords.

Definition messageEvent (event : MessageEvent) : Async unit :=
  try_catch
    (match msg_text event with
     | None | Some EmptyString => ret tt
     | Some text =>
       if Js.truthy (msg_subtype event) then ret tt
       else if Js.truthy (msg_bot_id event) then ret tt
       else
         channelInfo <- client.conversations_info (msg_channel event) ;;
         if channel_is_im channelInfo then
           let lowerText := Js.toLowerCase text in
           if Js.includes lowerText "hello" || Js.includes lowerText "hi" then
             say (msg_channel event)
                 (mkSay (Some (dm_greeting (msg_user event))) []
                        (Some (msg_ts event)))
           else if Js.includes lowerText "help" then
             say (msg_channel event)
                 (mkSay (Some dm_help) [] (Some (msg_ts event)))
           else if Js.includes lowerText "how are you" then
             say (msg_channel event)
                 (mkSay (Some dm_how_are_you) [] (Some (msg_ts event)))
           else ret tt
         else
           if hasKeyword text then
             client.reactions_add (msg_channel event) "eyes" (msg_ts event) ;;;
             client.reactions_add (msg_channel event) "warning" (msg_ts event)
           else ret tt
     end)
    (fun error => console_error "Error handling message event:").

(* ------------------------------------------------------------------ *)
(** ** listeners/events/app-mention.ts *)

Record AppMentionEvent : Type := mkAppMentionEvent {
  mention_text : string;
  mention_user : string;
  mention_channel : string;
  mention_ts : string
}.

Definition mention_help (user : string) : string :=
  "Hi <@" ++ user ++ ">! I can help you with:" ++ Js.nl ++
  "• `/hello` - Get a greeting" ++ Js.nl ++
  "• `/ping` - Check my response time" ++ Js.nl ++
  "• `/help` - Show all available commands".

Definition mention_status (user : string) : string :=
  "I'm online and ready to help, <@" ++ user ++ ">! 🟢".

Definition mention_thanks (user : string) : string :=
  "You're welcome, <@" ++ user ++ ">! Happy to help! 😊".

Definition mention_default (user : string) : string :=
  "Hi <@" ++ user ++ ">! You mentioned me. How can I help you today?" ++
  Js.nl ++ "_Try asking for " ++ Js.dquote ++ "help" ++ Js.dquote ++
  " or " ++ Js.dquote ++ "status" ++ Js.dquote ++ "_".

(** The [response] variable after the if / else-if chain. *)
Definition mention_response (event : AppMentionEvent) : string :=
  let messageText := Js.toLowerCase (mention_text event) in
  if Js.includes messageText "help" then mention_help (mention_user event)
  else if Js.includes messageText "status" then
    mention_status (mention_user event)
  else if Js.includes messageText "thank" then
    mention_thanks (mention_user event)
  else mention_default (mention_user event).

Definition appMentionEvent (event : AppMentionEvent) : Async unit :=
  try_catch
    (let response := mention_response event in
     say (mention_channel event)
         (mkSay (Some response) [] (Some (mention_ts event))))
    (fun error => console_error "Error handling app mention:").

(* ------------------------------------------------------------------ *)
(** ** listeners/commands/hello.ts and ping.ts *)

Record SlashCommand : Type := mkSlashCommand {
  user_id : string;
  channel_id : string;
  command_text : string
}.

(** [userInfo.user?.real_name || userInfo.user?.name || 'there'] *)
Definition hello_userName (userInfo : option User) : string :=
  match userInfo with
  | Some u => Js.or_else (Js.or_opt (real_name u) (user_name u)) "there"
  | None => "there"
  end.

Definition hello_blocks (userName : string) (command : SlashCommand)
  : list Block :=
  [ section (mrkdwn ("Hello *" ++ userName ++ "*! 👋"));
    section (mrkdwn ("You called the `/hello` command from <#" ++
                     channel_id command ++ ">"));
    context [ mrkdwn ("_Command text: " ++ Js.dquote ++
                      Js.or_else (Some (command_text command)) "none" ++
                      Js.dquote ++ "_") ] ].

Definition helloCommand (command : SlashCommand) : Async unit :=
  ack ;;;
  try_catch
    (userInfo <- client.users_info (user_id command) ;;
     let userName := hello_userName userInfo in
     say (channel_id command)
         (mkSay None (hello_blocks userName command) None))
    (fun error =>
       console_error "Error in hello command:" ;;;
       say_string (channel_id command)
                  "Sorry, something went wrong with the hello command.").

Definition ping_blocks (ackTime : Z) (command : SlashCommand) : list Block :=
  [ section (mrkdwn "🏓 *Pong!*");
    context [ mrkdwn ("Response time: " ++ Js.of_Z ackTime ++
                      "ms | User: <@" ++ user_id command ++ ">") ] ].

Definition pingCommand (command : SlashCommand) : Async unit :=
  startTime <- Date_now ;;
  ack ;;;
  endTime <- Date_now ;;
  let ackTime := (endTime - startTime)%Z in
  say (channel_id command) (mkSay None (ping_blocks ackTime command) None).

(* ------------------------------------------------------------------ *)
(** ** listeners/shortcuts/create-task.ts and listeners/actions/view-help.ts *)

(** The [body] of a shortcut or of a block action, as far as the two
    handlers read it. *)
Record InteractionBody : Type := mkBody {
  body_trigger_id : string
}.

Definition task_modal : View :=
  mkView (Some "task_modal")
         (plain_text "Create New Task")
         (Some (plain_text "Create"))
         (Some (plain_text "Cancel"))
         [ input "task_title" (plain_text "Task Title")
                 (plain_text_input "title_input" false
                                   (plain_text "Enter task title"))
                 false;
           input "task_description" (plain_text "Description")
                 (plain_text_input "description_input" true
                                   (plain_text "Describe your task"))
                 true;
           input "task_priority" (plain_text "Priority")
                 (static_select "priority_select"
                    (plain_text "Select priority")
                    [ mkOption (plain_text "🔴 High") "high";
                      mkOption (plain_text "🟡 Medium") "medium";
                      mkOption (plain_text "🟢 Low") "low" ])
                 false;
           input "task_assignee" (plain_text "Assign To")
                 (users_select "assignee_select"
                               (plain_text "Select a user"))
                 true ].

Definition createTaskShortcut (body : InteractionBody) : Async unit :=
  ack ;;;
  try_catch
    (client.views_open (body_trigger_id body) task_modal)
    (fun error => console_error "Error opening task modal:").

Definition help_modal : View :=
  mkView None
         (plain_text "Bot Help Guide")
         None
         (Some (plain_text "Close"))
         [ header (plain_text "Welcome to Solvook Bot!");
           section (mrkdwn
             "This bot helps you with various tasks in your Slack workspace.");
           divider;
           section (mrkdwn "*📝 Slash Commands*");
           section (plain_text
             ("• /hello - Receive a personalized greeting" ++ Js.nl ++
              "• /ping - Test bot responsiveness" ++ Js.nl ++
              "• /help - Display available commands"));
           divider;
           section (mrkdwn "*💬 Interactions*");
           section (plain_text
             ("• Mention the bot to get its attention" ++ Js.nl ++
              "• Send direct messages for private help" ++ Js.nl ++
              "• The bot reacts to urgent keywords"));
           divider;
           section (mrkdwn "*🎯 Tips*");
           section (plain_text
             ("• Use thread replies to keep conversations organized" ++ Js.nl ++
              "• Check bot status with " ++ Js.dquote ++ "status" ++ Js.dquote ++
              " mentions" ++ Js.nl ++
              "• Get quick help by typing " ++ Js.dquote ++ "help" ++ Js.dquote ++
              " in DM")) ].

Definition viewHelpAction (body : InteractionBody) : Async unit :=
  ack ;;;
  try_catch
    (client.views_open (body_trigger_id body) help_modal)
    (fun error => console_error "Error opening help modal:").

(* ------------------------------------------------------------------ *)
(** ** listeners/actions/channel-info.ts *)

(** What the handler reads of a click on the button: the [value] of the
    action, the channel the message with the button is in and the user who
    clicked.  The first two may be missing. *)
Record ChannelInfoClick : Type := mkClick {
  action_value : option string;       (* (action as any).value *)
  click_channel_id : option string;   (* body.channel?.id *)
  click_user_id : string              (* body.user.id *)
}.

(** [channelInfo.channel?.name] and the like. *)
Definition info_name (channelInfo : option Channel) : option string :=
  match channelInfo with Some c => channel_name c | None => None end.

Definition info_created (channelInfo : option Channel) : option Z :=
  match channelInfo with Some c => created c | None => None end.

Definition info_purpose (channelInfo : option Channel) : option string :=
  match channelInfo with Some c => purpose_value c | None => None end.

Definition info_topic (channelInfo : option Channel) : option string :=
  match channelInfo with Some c => topic_value c | None => None end.

(** [memberCount.members?.length || 0] *)
Definition members_length (members : option (list string)) : Z :=
  match members with
  | Some l => Z.of_nat (List.length l)
  | None => 0%Z
  end.

(** [(channelInfo.channel?.created || 0) * 1000] *)
Definition created_ms (channelInfo : option Channel) : Z :=
  (match info_created channelInfo with Some z => z | None => 0 end * 1000)%Z.

Definition channel_info_blocks (channelInfo : option Channel)
    (members : option (list string)) (date : string) : list Block :=
  [ header (plain_text "Channel Information 📊");
    section_fields
      [ mrkdwn ("*Channel Name:*" ++ Js.nl ++ "#" ++
                Js.show (info_name channelInfo));
        mrkdwn ("*Members:*" ++ Js.nl ++ Js.of_Z (members_length members) ++
                " members");
        mrkdwn ("*Created:*" ++ Js.nl ++ "<!date^" ++
                Js.show_Z (info_created channelInfo) ++
                "^{date_long}|" ++ date ++ ">");
        mrkdwn ("*Purpose:*" ++ Js.nl ++
                Js.or_else (info_purpose channelInfo) "No purpose set") ];
    section (mrkdwn ("*Topic:*" ++ Js.nl ++
                     Js.or_else (info_topic channelInfo) "No topic set")) ].

Definition channelInfoAction (click : ChannelInfoClick) : Async unit :=
  ack ;;;
  try_catch
    (let channelId :=
       Js.or_opt (action_value click) (click_channel_id click) in
     channelInfo <- client.conversations_info_of channelId ;;
     memberCount <- client.conversations_members channelId ;;
     date <- Date_toLocaleDateString (created_ms channelInfo) ;;
     client.chat_postEphemeral channelId (click_user_id click)
       (channel_info_blocks channelInfo memberCount date))
    (fun error => console_error "Error handling channel info action:").

(* ------------------------------------------------------------------ *)
(** ** listeners/events/member-joined.ts *)

Record MemberJoinedEvent : Type := mkMemberJoined {
  joined_user : string;
  joined_channel : string
}.

(** [channelInfo.channel?.name || 'the channel'] *)
Definition joined_channelName (channelInfo : option Channel) : string :=
  match channelInfo with
  | Some c => Js.or_else (channel_name c) "the channel"
  | None => "the channel"
  end.

(** [userInfo.user?.real_name || userInfo.user?.name || 'New member'] *)
Definition joined_userName (userInfo : option User) : string :=
  match userInfo with
  | Some u => Js.or_else (Js.or_opt (real_name u) (user_name u)) "New member"
  | None => "New member"
  end.

Definition welcome_blocks (channelName userName channel : string)
  : list Block :=
  [ section (mrkdwn ("Welcome to #" ++ channelName ++ ", *" ++ userName ++
                     "*! 🎉"));
    section (mrkdwn ("We're glad to have you here. Feel free to introduce " ++
                     "yourself and let us know if you need any help " ++
                     "getting started!"));
    actions [ button (plain_text "Get Channel Info") "channel_info"
                     (Some channel) None;
              button (plain_text "View Help") "view_help"
                     None (Some "primary") ] ].

Definition memberJoinedChannelEvent (event : MemberJoinedEvent)
  : Async unit :=
  try_catch
    (userInfo <- client.users_info (joined_user event) ;;
     channelInfo <- client.conversations_info (joined_channel event) ;;
     let userName := joined_userName userInfo in
     let channelName := joined_channelName channelInfo in
     client.chat_postMessage (joined_channel event)
       (mkSay None (welcome_blocks channelName userName (joined_channel event))
              None))
    (fun error => console_error "Error handling member joined event:").

(* ------------------------------------------------------------------ *)
(** ** Reading a finished run *)

Definition calls (w : World) : list ApiCall := map fst (trace w).

(** The messages posted (attempted) during the run, with their channel. *)
Definition posted (w : World) : list (string * SayArguments) :=
  flat_map (fun c => match c with
                     | ChatPostMessage ch m => [(ch, m)]
                     | _ => []
                     end) (calls w).

(** The reactions added (attempted) during the run: channel, name,
    timestamp. *)
Definition reactions (w : World) : list (string * string * string) :=
  flat_map (fun c => match c with
                     | ReactionsAdd ch n ts => [(ch, n, ts)]
                     | _ => []
                     end) (calls w).

(** The modals opened (attempted) during the run, with their trigger. *)
Definition modals (w : World) : list (string * View) :=
  flat_map (fun c => match c with
                     | ViewsOpen t v => [(t, v)]
                     | _ => []
                     end) (calls w).

(** A platform on which every call succeeds; [is_dm] tells which channels
    are direct-message conversations. *)
Definition friendly (is_dm : string -> bool) (who : string -> option User)
  : Platform :=
  mkPlatform (fun _ => true)
             (fun _ u => Some (who u))
             (fun _ c => Some (Some (mkChannel (Some (is_dm c)) None
                                                None None None)))
             (fun _ _ _ => true)
             (fun _ _ _ _ => true)
             (fun _ _ _ => true)
             (fun n => Z.of_nat n)
             (fun _ => None)
             (fun _ _ => Some (Some []))
             (fun _ _ _ _ => true)
             (fun _ => "1/1/1970").

(* ------------------------------------------------------------------ *)
(** ** Sample inputs *)

Definition channel_message (text : string) : MessageEvent :=
  mkMessageEvent (Some text) None None "C123" "U7" "1700000000.000100".

Definition direct_message (text : string) : MessageEvent :=
  mkMessageEvent (Some text) None None "D42" "U7" "1700000000.000200".

Definition only_D_is_dm (channel : string) : bool :=
  Js.startsWith channel "D".

Definition alice (user : string) : option User :=
  Some (mkUser (Some "Alice") (Some "alice")).

Definition easy : Platform := friendly only_D_is_dm alice.

(** What the platform answers to the handler's channel lookup (its first
    call): [Some true] for a direct-message conversation, [Some false] for
    any other channel, [None] when the lookup is rejected. *)
Definition lookup_is_im (p : Platform) (channel : string) : option bool :=
  option_map channel_is_im (on_conversations_info p [] channel).

(** The event passes the three guards at the top of the handler. *)
Definition accepted (event : MessageEvent) : bool :=
  Js.truthy (msg_text event) &&
  negb (Js.truthy (msg_subtype event)) &&
  negb (Js.truthy (msg_bot_id event)).

(** No call of the run was rejected by the platform. *)
Definition no_failure (w : World) : bool := forallb snd (trace w).

(** A platform that behaves like [easy] but rejects [views.open] when the
    trigger is the empty string. *)
Definition strict : Platform :=
  mkPlatform (on_ack easy) (on_users_info easy) (on_conversations_info easy)
             (on_chat_postMessage easy) (on_reactions_add easy)
             (fun _ trigger _ => negb (String.eqb trigger EmptyString))
             (now easy)
             (on_conversations_info_undefined easy)
             (on_conversations_members easy) (on_chat_postEphemeral easy)
             (toLocaleDateString easy).

(** Platforms with an outage: every [views.open], respectively every
    [chat.postMessage], respectively every [users.info] is rejected. *)
Definition modal_outage : Platform :=
  mkPlatform (on_ack easy) (on_users_info easy) (on_conversations_info easy)
             (on_chat_postMessage easy) (on_reactions_add easy)
             (fun _ _ _ => false)
             (now easy)
             (on_conversations_info_undefined easy)
             (on_conversations_members easy) (on_chat_postEphemeral easy)
             (toLocaleDateString easy).

Definition post_outage : Platform :=
  mkPlatform (on_ack easy) (on_users_info easy) (on_conversations_info easy)
             (fun _ _ _ => false) (on_reactions_add easy)
             (on_views_open easy)
             (now easy)
             (on_conversations_info_undefined easy)
             (on_conversations_members easy) (on_chat_postEphemeral easy)
             (toLocaleDateString easy).

Definition lookup_outage : Platform :=
  mkPlatform (on_ack easy) (fun _ _ => None) (on_conversations_info easy)
             (on_chat_postMessage easy) (on_reactions_add easy)
             (on_views_open easy)
             (now easy)
             (on_conversations_info_undefined easy)
             (on_conversations_members easy) (on_chat_postEphemeral easy)
             (toLocaleDateString easy).

(* ------------------------------------------------------------------ *)
(** ** Failure handling, as read off a trace *)

(** The calls issued after the first rejected call of a trace; [None] when
    no call was rejected. *)
Fixpoint after_first_failure (t : list Issued) : option (list Issued) :=
  match t with
  | [] => None
  | (_, true) :: t' => after_first_failure t'
  | (_, false) :: t' => Some t'
  end.

(** The run returned normally; if a call was rejected, exactly [line] was
    written to the console and no call followed the rejected one (so no
    notice was sent to the user); otherwise the console stayed empty. *)
Definition logged_and_swallowed (line : string) (out : World * Result unit)
  : Prop :=
  snd out = Ok tt /\
  match after_first_failure (trace (fst out)) with
  | None => console (fst out) = []
  | Some rest => rest = [] /\ console (fst out) = [line]
  end.

(** If a call was rejected, exactly [line] was written to the console and
    exactly one more call followed, the [notice]; the run returns normally
    when the notice is accepted and rejects with it otherwise.  Without a
    rejected call the console stayed empty and the run returned normally. *)
Definition logged_and_noticed (line : string) (notice : ApiCall)
    (out : World * Result unit) : Prop :=
  match after_first_failure (trace (fst out)) with
  | None => console (fst out) = [] /\ snd out = Ok tt
  | Some rest =>
      console (fst out) = [line] /\
      exists ok, rest = [(notice, ok)] /\
                 snd out = if ok then Ok tt else Throw (Rejected notice)
  end.

(* ------------------------------------------------------------------ *)
(** ** Reply rules, following the specification's wording

    "Rules are evaluated as an ordered list of (predicate, action-builder)
    pairs; the first matching predicate wins."  The predicate reads the
    lower-cased text, the builder makes the reply text for a user. *)

Record ReplyRule : Type := mkRule {
  rule_predicate : string -> bool;
  rule_builder : string -> string
}.

Fixpoint first_match (rules : list ReplyRule) (lowerText : string)
  : option ReplyRule :=
  match rules with
  | [] => None
  | r :: rest =>
      if rule_predicate r lowerText then Some r
      else first_match rest lowerText
  end.

(** The replies the rule list yields for one inbound text: at most one,
    threaded on the inbound timestamp and sent to the inbound channel. *)
Definition replies_of (rules : list ReplyRule)
    (text user channel ts : string) : list (string * SayArguments) :=
  match first_match rules (Js.toLowerCase text) with
  | Some r => [ (channel, mkSay (Some (rule_builder r user)) [] (Some ts)) ]
  | None => []
  end.

Definition mention_rules : list ReplyRule :=
  [ mkRule (fun t => Js.includes t "help") mention_help;
    mkRule (fun t => Js.includes t "status") mention_status;
    mkRule (fun t => Js.includes t "thank") mention_thanks;
    mkRule (fun _ => true) mention_default ].

Definition dm_rules : list ReplyRule :=
  [ mkRule (fun t => Js.includes t "hello" || Js.includes t "hi") dm_greeting;
    mkRule (fun t => Js.includes t "help") (fun _ => dm_help);
    mkRule (fun t => Js.includes t "how are you") (fun _ => dm_how_are_you) ].

(* ------------------------------------------------------------------ *)
(** ** listeners/commands/help.ts *)

Definition help_blocks : list Block :=
  [ header (plain_text "Solvook Bot Help 📚");
    section (mrkdwn "Here are the available commands:");
    divider;
    section (mrkdwn
      ("*Slash Commands:*" ++ Js.nl ++
       "• `/hello` - Get a personalized greeting" ++ Js.nl ++
       "• `/ping` - Check if the bot is responsive" ++ Js.nl ++
       "• `/help` - Show this help message"));
    section (mrkdwn
      ("*Message Events:*" ++ Js.nl ++
       "• Mention the bot to get a response" ++ Js.nl ++
       "• Direct message the bot for assistance"));
    section (mrkdwn
      ("*Interactive Features:*" ++ Js.nl ++
       "• Click buttons in bot messages" ++ Js.nl ++
       "• Use shortcuts from the shortcuts menu"));
    context [ mrkdwn "_Need more help? Contact your Slack admin._" ] ].

(** The handler reads nothing of the command; [say] posts to the channel
    the command came from. *)
Definition helpCommand (command : SlashCommand) : Async unit :=
  ack ;;;
  say (channel_id command) (mkSay None help_blocks None).

(* ------------------------------------------------------------------ *)
(** ** The listener registries ([index.ts] of each directory)

    [app.command(name, f)], [app.event(name, f)], [app.action(id, f)] and
    [app.shortcut(id, f)] each add one listener to the Bolt application.
    The application is the list of its registrations, in the order they
    were made; a listener is named by the handler function it is.  Bolt
    also has [app.view(callback_id, f)] for modal submissions. *)

Inductive ListenerKind : Type :=
| CommandListener
| EventListener
| ActionListener
| ShortcutListener
| ViewListener.

Inductive Handler : Type :=
| H_helloCommand
| H_helpCommand
| H_pingCommand
| H_appMentionEvent
| H_messageEvent
| H_memberJoinedChannelEvent
| H_channelInfoAction
| H_viewHelpAction
| H_createTaskShortcut.

Record Registration : Type := mkRegistration {
  reg_kind : ListenerKind;
  reg_name : string;
  reg_handler : Handler
}.

Definition App : Type := list Registration.

Definition app_command (name : string) (f : Handler) (app : App) : App :=
  (app ++ [ mkRegistration CommandListener name f ])%list.

Definition app_event (name : string) (f : Handler) (app : App) : App :=
  (app ++ [ mkRegistration EventListener name f ])%list.

Definition app_action (name : string) (f : Handler) (app : App) : App :=
  (app ++ [ mkRegistration ActionListener name f ])%list.

Definition app_shortcut (name : string) (f : Handler) (app : App) : App :=
  (app ++ [ mkRegistration ShortcutListener name f ])%list.

Definition registerCommands (app : App) : App :=
  app_command "/ping" H_pingCommand
    (app_command "/help" H_helpCommand
       (app_command "/hello" H_helloCommand app)).

Definition registerEvents (app : App) : App :=
  app_event "member_joined_channel" H_memberJoinedChannelEvent
    (app_event "message" H_messageEvent
       (app_event "app_mention" H_appMentionEvent app)).

Definition registerActions (app : App) : App :=
  app_action "view_help" H_viewHelpAction
    (app_action "channel_info" H_channelInfoAction app).

Definition registerShortcuts (app : App) : App :=
  app_shortcut "create_task" H_createTaskShortcut app.

Definition registerListeners (app : App) : App :=
  registerShortcuts (registerActions (registerEvents (registerCommands app))).

Definition kind_eqb (a b : ListenerKind) : bool :=
  match a, b with
  | CommandListener, CommandListener
  | EventListener, EventListener
  | ActionListener, ActionListener
  | ShortcutListener, ShortcutListener
  | ViewListener, ViewListener => true
  | _, _ => false
  end.

(** The names registered for one kind of listener. *)
Definition registered (kind : ListenerKind) (app : App) : list string :=
  map reg_name (filter (fun r => kind_eqb (reg_kind r) kind) app).

(** The [action_id]s of the buttons a message shows. *)
Definition element_action_ids (e : Element) : list string :=
  match e with
  | button _ id _ _ => [ id ]
  | _ => []
  end.

Definition block_button_ids (b : Block) : list string :=
  match b with
  | actions es => flat_map element_action_ids es
  | _ => []
  end.

Definition message_button_ids (m : SayArguments) : list string :=
  flat_map block_button_ids (say_blocks m).

(** All the text a modal shows. *)
Definition view_texts (v : View) : list string :=
  text_of (title v)
  :: match submit v with Some t => [ text_of t ] | None => [] end
  ++ match close v with Some t => [ text_of t ] | None => [] end
  ++ flat_map block_texts (view_blocks v).

(** Some text of the list mentions [sub]. *)
Definition mentioned_in (texts : list string) (sub : string) : bool :=
  existsb (fun t => Js.includes t sub) texts.

(* ------------------------------------------------------------------ *)
(** ** Shapes of a run *)

(** The acknowledgement is the first call of the run; when it is rejected
    nothing else is called, nothing is logged and the rejection is what
    the handler's promise rejects with. *)
Definition acknowledges_first (p : Platform) (out : World * Result unit)
  : Prop :=
  exists rest,
    trace (fst out) = (Ack, on_ack p []) :: rest /\
    (on_ack p [] = false ->
     rest = [] /\ console (fst out) = [] /\ snd out = Throw (Rejected Ack)).

(** Nothing is ever logged; a rejected call is the last call of the run
    and the handler's promise rejects with it. *)
Definition rejection_propagates (out : World * Result unit) : Prop :=
  console (fst out) = [] /\
  match after_first_failure (trace (fst out)) with
  | None => snd out = Ok tt
  | Some rest =>
      rest = [] /\
      exists c, In (c, false) (trace (fst out)) /\
                snd out = Throw (Rejected c)
  end.


(* ------------------------------------------------------------------ *)
(** ** Runs on the sample inputs *)

Example channel_urgent_run :
  calls (fst (run (messageEvent (channel_message "This is URGENT!")) easy))
  = [ ConversationsInfo "C123";
      ReactionsAdd "C123" "eyes" "1700000000.000100";
      ReactionsAdd "C123" "warning" "1700000000.000100" ].
Proof. reflexivity. Qed.

Example direct_hello_run :
  posted (fst (run (messageEvent (direct_message "Hello bot")) easy))
  = [ ("D42", mkSay (Some (dm_greeting "U7")) []
                    (Some "1700000000.000200")) ].
Proof. reflexivity. Qed.

Example direct_this_run :
  (* "this" contains "hi": the greeting rule fires *)
  posted (fst (run (messageEvent (direct_message "what is this")) easy))
  = [ ("D42", mkSay (Some (dm_greeting "U7")) []
                    (Some "1700000000.000200")) ].
Proof. reflexivity. Qed.

Example channel_info_click_run :
  calls (fst (run (channelInfoAction (mkClick (Some "C123") (Some "C9") "U7"))
                  easy))
  = [ Ack; ConversationsInfo "C123"; ConversationsMembers (Some "C123");
      ChatPostEphemeral (Some "C123") "U7"
        (channel_info_blocks
           (Some (mkChannel (Some false) None None None None))
           (Some []) "1/1/1970") ].
Proof. reflexivity. Qed.

Example channel_info_click_without_channel_run :
  run (channelInfoAction (mkClick None None "U7")) easy
  = (mkWorld [ (Ack, true); (ConversationsInfoUndefined, false) ]
             [ "Error handling channel info action:" ] 0,
     Ok tt).
Proof. reflexivity. Qed.

Example hello_in_channel_CU1_run :
  (* the channel identifier, not the user identifier, brings "U1" in *)
  existsb (fun m => content_includes (snd m) "U1")
          (posted (fst (run (helloCommand
                               (mkSlashCommand "U1" "CU1" EmptyString))
                            easy)))
  = true.
Proof. reflexivity. Qed.

Example lower_kelvin_sign :
  (* "THAN" followed by U+212A and " you" *)
  Js.toLowerCase ("THAN" ++ String "226" (String "132" (String "170" " you")))
  = "thank you".
Proof. reflexivity. Qed.

Example lower_dotted_capital_I :
  (* "H" followed by U+0130 *)
  Js.toLowerCase ("H" ++ String "196" (String "176" EmptyString))
  = "hi" ++ Js.dot_above.
Proof. reflexivity. Qed.

Example mention_kelvin_thanks_run :
  posted (fst (run (appMentionEvent
                      (mkAppMentionEvent
                         ("THAN" ++ String "226" (String "132"
                                                    (String "170" " you")))
                         "U7" "C123" "1700000000.000900")) easy))
  = [ ("C123", mkSay (Some (mention_thanks "U7")) []
                     (Some "1700000000.000900")) ].
Proof. reflexivity. Qed.

Example direct_dotted_I_greeting_run :
  posted (fst (run (messageEvent
                      (direct_message
                         ("H" ++ String "196" (String "176" EmptyString))))
                   easy))
  = [ ("D42", mkSay (Some (dm_greeting "U7")) []
                    (Some "1700000000.000200")) ].
Proof. reflexivity. Qed.

(* ------------------------------------------------------------------ *)
(** ** Generic facts *)

Ltac run_handler :=
  unfold run, try_catch, bind, ret, say_string, say, ack,
         client.users_info, client.conversations_info,
         client.chat_postMessage, client.reactions_add, client.views_open,
         client.conversations_info_of, client.conversations_members,
         client.chat_postEphemeral, Date_toLocaleDateString,
         call_unit, call_value, console_error, record; simpl.

Lemma truthy_false_cases (v : option string) :
  Js.truthy v = false -> v = None \/ v = Some EmptyString.
Proof.
  destruct v as [[|c s]|]; simpl; intros H; auto; discriminate.
Qed.

Lemma string_app_assoc (a b c : string) : (a ++ b) ++ c = a ++ b ++ c.
Proof.
  induction a as [|x a IH]; simpl; [reflexivity | now rewrite IH].
Qed.

Lemma startsWith_refl (s : string) : Js.startsWith s s = true.
Proof.
  induction s as [|c s IH]; simpl; [reflexivity|].
  rewrite Ascii.eqb_refl. exact IH.
Qed.

Lemma startsWith_app (s t : string) : Js.startsWith (s ++ t) s = true.
Proof.
  induction s as [|c s IH]; simpl.
  - reflexivity.
  - rewrite Ascii.eqb_refl. exact IH.
Qed.

Lemma includes_startsWith (s sub : string) :
  Js.startsWith s sub = true -> Js.includes s sub = true.
Proof.
  intros H. destruct s; simpl; rewrite H; reflexivity.
Qed.

Lemma includes_app_r (a t sub : string) :
  Js.includes t sub = true -> Js.includes (a ++ t) sub = true.
Proof.
  intros H. induction a as [|c a IH]; simpl.
  - exact H.
  - rewrite IH. apply orb_true_r.
Qed.

(** [sub] occurs in any string built around it. *)
Lemma includes_infix (a sub b : string) :
  Js.includes (a ++ sub ++ b) sub = true.
Proof.
  apply includes_app_r, includes_startsWith, startsWith_app.
Qed.

Lemma plain_not_lead (c : ascii) :
  Js.plain c = true ->
  Ascii.eqb c "196"%char = false /\
  Ascii.eqb c "226"%char = false.
Proof.
  intros H. split.
  - destruct (Ascii.eqb c "196"%char) eqn:E; [|reflexivity].
    apply Ascii.eqb_eq in E. subst c. discriminate H.
  - destruct (Ascii.eqb c "226"%char) eqn:E; [|reflexivity].
    apply Ascii.eqb_eq in E. subst c. discriminate H.
Qed.

(** How [toLowerCase] treats the first character of a text. *)
Lemma toLowerCase_cons_cases (c : ascii) (s : string) :
  Js.toLowerCase (String c s) =
    String (Js.lower_ascii c) (Js.toLowerCase s) \/
  (exists rest,
     c = "196"%char /\ s = String "176"%char rest /\
     Js.toLowerCase (String c s) =
       String "i" (Js.dot_above ++ Js.toLowerCase rest)) \/
  (exists rest,
     c = "226"%char /\
     s = String "132"%char (String "170"%char rest) /\
     Js.toLowerCase (String c s) = String "k" (Js.toLowerCase rest)).
Proof.
  destruct s as [|c2 s2]; [left; reflexivity|].
  cbn [Js.toLowerCase].
  destruct (Js.is_dotted_I c c2) eqn:Ei.
  - right. left. exists s2.
    unfold Js.is_dotted_I in Ei. apply andb_true_iff in Ei as [E1 E2].
    apply Ascii.eqb_eq in E1, E2. subst. auto.
  - destruct s2 as [|c3 s3]; [left; reflexivity|].
    destruct (Js.is_kelvin c c2 c3) eqn:Ek; [|left; reflexivity].
    right. right. exists s3.
    unfold Js.is_kelvin in Ek. apply andb_true_iff in Ek as [Ek E3].
    apply andb_true_iff in Ek as [E1 E2].
    apply Ascii.eqb_eq in E1, E2, E3. subst. auto.
Qed.

Lemma toLowerCase_plain_cons (c : ascii) (s : string) :
  Js.plain c = true ->
  Js.toLowerCase (String c s) =
    String (Js.lower_ascii c) (Js.toLowerCase s).
Proof.
  intros H.
  destruct (toLowerCase_cons_cases c s)
    as [E | [(r & -> & _) | (r & -> & _)]]; [exact E | |]; discriminate H.
Qed.


Lemma startsWith_toLowerCase (s sub : string) :
  Js.all_plain sub = true ->
  Js.startsWith s sub = true ->
  Js.startsWith (Js.toLowerCase s) (Js.toLowerCase sub) = true.
Proof.
  revert s. induction sub as [|a sub IH]; intros s Hp H.
  - reflexivity.
  - destruct s as [|b s]; simpl in H; [discriminate|].
    simpl in Hp. apply andb_true_iff in Hp as [Ha Hp].
    apply andb_true_iff in H as [Hab Hrest].
    apply Ascii.eqb_eq in Hab. subst b.
    rewrite !toLowerCase_plain_cons by exact Ha.
    simpl. rewrite Ascii.eqb_refl. simpl. apply IH; assumption.
Qed.

Lemma includes_cons (c : ascii) (s sub : string) :
  Js.includes s sub = true -> Js.includes (String c s) sub = true.
Proof.
  intros H. simpl. rewrite H. apply orb_true_r.
Qed.

Lemma includes_skip_byte (c a : ascii) (s sub : string) :
  Js.plain a = true -> Js.plain c = false ->
  Js.includes (String c s) (String a sub) = true ->
  Js.includes s (String a sub) = true.
Proof.
  intros Ha Hc H. simpl in H. apply orb_true_iff in H as [H | H]; [|exact H].
  apply andb_true_iff in H as [H _]. apply Ascii.eqb_eq in H. subst c.
  congruence.
Qed.

Lemma includes_toLowerCase_upto (n : nat) (s sub : string) :
  String.length s <= n ->
  Js.all_plain sub = true ->
  Js.includes s sub = true ->
  Js.includes (Js.toLowerCase s) (Js.toLowerCase sub) = true.
Proof.
  revert s. induction n as [|n IH]; intros s Hn Hp H.
  - destruct s; [|simpl in Hn; lia].
    apply includes_startsWith.
    apply (startsWith_toLowerCase EmptyString); [exact Hp|].
    simpl in H. now rewrite orb_false_r in H.
  - destruct s as [|c s].
    { apply includes_startsWith.
      apply (startsWith_toLowerCase EmptyString); [exact Hp|].
      simpl in H. now rewrite orb_false_r in H. }
    destruct (Js.startsWith (String c s) sub) eqn:Hsw.
    { apply includes_startsWith, startsWith_toLowerCase; assumption. }
    assert (Htail : Js.includes s sub = true).
    { simpl in H. rewrite Hsw in H. exact H. }
    destruct sub as [|a sub]; [destruct s; discriminate Hsw|].
    assert (Ha : Js.plain a = true).
    { simpl in Hp. now apply andb_true_iff in Hp as [Ha _]. }
    simpl in Hn.
    destruct (toLowerCase_cons_cases c s)
      as [E | [(r & -> & -> & E) | (r & -> & -> & E)]]; rewrite E.
    + apply includes_cons, IH; [lia | assumption | assumption].
    + apply includes_cons, includes_app_r, IH; [simpl in Hn; lia | assumption|].
      apply (includes_skip_byte "176"%char); auto.
    + apply includes_cons, IH; [simpl in Hn; lia | assumption|].
      apply (includes_skip_byte "170"%char); auto.
      apply (includes_skip_byte "132"%char); auto.
Qed.

(** A text that contains the ASCII string [sub] contains it
    case-insensitively as well: its lower-cased form contains the
    lower-cased [sub]. *)
Lemma includes_toLowerCase (s sub : string) :
  Js.all_plain sub = true ->
  Js.includes s sub = true ->
  Js.includes (Js.toLowerCase s) (Js.toLowerCase sub) = true.
Proof.
  apply (@includes_toLowerCase_upto (String.length s) s sub). lia.
Qed.

(** A text whose lower-cased form is ASCII without the letter k is itself
    ASCII. *)
Lemma all_plain_of_lowered (s : string) :
  Js.all_plain (Js.toLowerCase s) = true ->
  Js.includes (Js.toLowerCase s) "k" = false ->
  Js.all_plain s = true.
Proof.
  induction s as [|c s IH]; [reflexivity|]. intros Hp Hk.
  destruct (toLowerCase_cons_cases c s)
    as [E | [(r & -> & -> & E) | (r & -> & -> & E)]]; rewrite E in Hp, Hk.
  - simpl in Hp. apply andb_true_iff in Hp as [Hc Hp].
    simpl in Hk. apply orb_false_iff in Hk as [_ Hk].
    assert (Hplain : Js.plain c = true).
    { unfold Js.lower_ascii in Hc.
      destruct ((65 <=? nat_of_ascii c)%nat && (nat_of_ascii c <=? 90)%nat)
        eqn:Hup; [|exact Hc].
      apply andb_true_iff in Hup as [_ Hup]. apply Nat.leb_le in Hup.
      destruct c as [b0 b1 b2 b3 b4 b5 b6 [|]]; [|reflexivity].
      exfalso. clear -Hup.
      assert (128 <= nat_of_ascii (Ascii b0 b1 b2 b3 b4 b5 b6 true)).
      { destruct b0, b1, b2, b3, b4, b5, b6; vm_compute;
          repeat constructor. }
      lia. }
    simpl. rewrite Hplain. simpl. apply IH; assumption.
  - discriminate Hp.
  - discriminate Hk.
Qed.

(** *** A two-character needle inside a text built around a value *)

Lemma includes_one_cons (a c : ascii) (s : string) :
  Js.includes (String c s) (String a EmptyString) = false ->
  Ascii.eqb a c = false /\ Js.includes s (String a EmptyString) = false.
Proof.
  simpl. intros H. apply orb_false_iff in H as [H1 H2].
  rewrite andb_true_r in H1. auto.
Qed.

Lemma includes_two_absent (a b : ascii) (s : string) :
  Js.includes s (String a EmptyString) = false ->
  Js.includes s (String a (String b EmptyString)) = false.
Proof.
  induction s as [|c s IH]; intros H; [reflexivity|].
  apply includes_one_cons in H as [Hc Hs].
  simpl. rewrite Hc. simpl. apply IH, Hs.
Qed.

(** A prefix without the first character of the needle hides nothing. *)
Lemma includes_two_after (a b : ascii) (before s : string) :
  Js.includes before (String a EmptyString) = false ->
  Js.includes (before ++ s) (String a (String b EmptyString)) =
  Js.includes s (String a (String b EmptyString)).
Proof.
  induction before as [|c before IH]; intros H; [reflexivity|].
  apply includes_one_cons in H as [Hc Hs].
  simpl. rewrite Hc. simpl. apply IH, Hs.
Qed.

(** Nor does a suffix without the first character of the needle that does
    not start with its second character. *)
Lemma includes_two_before (a b : ascii) (s rest : string) :
  Js.includes rest (String a EmptyString) = false ->
  Js.startsWith rest (String b EmptyString) = false ->
  Js.includes (s ++ rest) (String a (String b EmptyString)) =
  Js.includes s (String a (String b EmptyString)).
Proof.
  intros Ha Hb. induction s as [|c s IH].
  - simpl (EmptyString ++ rest). rewrite (@includes_two_absent a b rest Ha).
    reflexivity.
  - simpl. rewrite IH. f_equal. f_equal.
    destruct s as [|d s]; simpl.
    + destruct rest as [|r rest]; [reflexivity|]. simpl in Hb.
      rewrite andb_true_r in Hb. rewrite Hb. reflexivity.
    + reflexivity.
Qed.

(* ------------------------------------------------------------------ *)
(** ** Dropped message events *)

(** C1. A message event that carries a bot marker ([bot_id]) or a
    non-empty [subtype] is dropped: the handler returns normally and the
    run leaves no call in the trace and nothing on the console. *)
Theorem messageEvent_drops_bot_and_subtype
    (p : Platform) (event : MessageEvent) :
  Js.truthy (msg_bot_id event) = true \/
  Js.truthy (msg_subtype event) = true ->
  run (messageEvent event) p = (world0, Ok tt).
Proof.
  intros H. unfold messageEvent. run_handler.
  destruct (msg_text event) as [[|c s]|]; try reflexivity.
  destruct (Js.truthy (msg_subtype event)) eqn:Hs; try reflexivity.
  destruct (Js.truthy (msg_bot_id event)) eqn:Hb; try reflexivity.
  destruct H; discriminate.
Qed.

Lemma messageEvent_drops_bot_and_subtype_witness :
  let bot_echo := mkMessageEvent (Some "urgent hello") None (Some "B01")
                                 "C123" "U7" "1700000000.000300" in
  let edit_echo := mkMessageEvent (Some "urgent hello")
                                  (Some "message_changed") None
                                  "D42" "U7" "1700000000.000400" in
  run (messageEvent bot_echo) easy = (world0, Ok tt) /\
  run (messageEvent edit_echo) easy = (world0, Ok tt).
Proof.
  split.
  - apply messageEvent_drops_bot_and_subtype. left. reflexivity.
  - apply messageEvent_drops_bot_and_subtype. right. reflexivity.
Defined.

(** C9. A message event whose [text] is absent or empty is dropped before
    any call, the channel lookup included: the run leaves an empty trace,
    an empty console, and returns normally. *)
Theorem messageEvent_drops_empty_text
    (p : Platform) (event : MessageEvent) :
  Js.truthy (msg_text event) = false ->
  run (messageEvent event) p = (world0, Ok tt).
Proof.
  intros H. apply truthy_false_cases in H.
  unfold messageEvent. run_handler.
  destruct H as [-> | ->]; reflexivity.
Qed.

Lemma messageEvent_drops_empty_text_witness :
  let no_text := mkMessageEvent None None None
                                "D42" "U7" "1700000000.000500" in
  let empty_text := mkMessageEvent (Some EmptyString) None None
                                   "C123" "U7" "1700000000.000600" in
  run (messageEvent no_text) easy = (world0, Ok tt) /\
  run (messageEvent empty_text) easy = (world0, Ok tt).
Proof.
  split; apply messageEvent_drops_empty_text; reflexivity.
Defined.

(* ------------------------------------------------------------------ *)
(** ** Accepted message events *)

Arguments Js.includes : simpl never.
Arguments Js.toLowerCase : simpl never.
Arguments hasKeyword : simpl never.

Ltac split_ifs :=
  repeat match goal with
         | |- context [if ?b then _ else _] => destruct b eqn:?; simpl
         end.

Lemma accepted_inv (event : MessageEvent) :
  accepted event = true ->
  exists c s, msg_text event = Some (String c s) /\
              Js.truthy (msg_subtype event) = false /\
              Js.truthy (msg_bot_id event) = false.
Proof.
  unfold accepted. intros H.
  apply andb_true_iff in H as [H Hb].
  apply andb_true_iff in H as [Ht Hs].
  apply negb_true_iff in Hb, Hs.
  destruct (msg_text event) as [[|c s]|]; try discriminate.
  exists c, s. auto.
Qed.

Lemma lookup_is_im_inv (p : Platform) (channel : string) (b : bool) :
  lookup_is_im p channel = Some b ->
  exists info, on_conversations_info p [] channel = Some info /\
               channel_is_im info = b.
Proof.
  unfold lookup_is_im. destruct (on_conversations_info p [] channel) as [i|].
  - simpl. intros [= <-]. exists i. auto.
  - discriminate.
Qed.

(** C7. A direct message that passes the guards and whose lower-cased text
    contains "hello" gets exactly one posted message, the greeting, sent to
    the channel of the event; the only other call of the run is the channel
    lookup. *)
Theorem direct_message_hello_one_reply
    (p : Platform) (event : MessageEvent) (text : string) :
  msg_text event = Some text ->
  Js.truthy (msg_subtype event) = false ->
  Js.truthy (msg_bot_id event) = false ->
  lookup_is_im p (msg_channel event) = Some true ->
  Js.includes (Js.toLowerCase text) "hello" = true ->
  let w := fst (run (messageEvent event) p) in
  calls w =
    [ ConversationsInfo (msg_channel event);
      ChatPostMessage (msg_channel event)
        (mkSay (Some (dm_greeting (msg_user event))) []
               (Some (msg_ts event))) ] /\
  length (posted w) = 1 /\
  Forall (fun m => fst m = msg_channel event) (posted w).
Proof.
  intros Ht Hs Hb Him Hhello.
  apply lookup_is_im_inv in Him as (info & Hinfo & Him).
  assert (Hne : text <> EmptyString).
  { intros ->. discriminate. }
  destruct text as [|c s]; [congruence|].
  assert (Hcalls : calls (fst (run (messageEvent event) p)) =
    [ ConversationsInfo (msg_channel event);
      ChatPostMessage (msg_channel event)
        (mkSay (Some (dm_greeting (msg_user event))) []
               (Some (msg_ts event))) ]).
  { unfold messageEvent. run_handler.
    rewrite Ht, Hs, Hb. simpl. rewrite Hinfo. simpl.
    rewrite Him, Hhello. simpl.
    split_ifs; reflexivity. }
  cbv zeta. unfold posted. rewrite Hcalls. simpl.
  repeat split. repeat constructor.
Qed.

Lemma direct_message_hello_one_reply_witness :
  let event := direct_message "Well, HeLLo there" in
  let w := fst (run (messageEvent event) easy) in
  calls w =
    [ ConversationsInfo "D42";
      ChatPostMessage "D42"
        (mkSay (Some (dm_greeting "U7")) [] (Some "1700000000.000200")) ] /\
  length (posted w) = 1 /\
  Forall (fun m => fst m = "D42") (posted w).
Proof.
  apply (@direct_message_hello_one_reply easy
           (direct_message "Well, HeLLo there") "Well, HeLLo there");
    reflexivity.
Defined.

(* ------------------------------------------------------------------ *)
(** ** Keyword reactions *)

(** The reaction branch is the [else] of the direct-message test, and the
    guards come first.  In a direct message that contains a keyword and a
    greeting, the reply is posted and no reaction is added; the same text in
    a channel gets the two reactions and no reply; a channel message that
    carries a bot marker gets nothing at all. *)
Lemma reactions_do_not_fire_alongside_reply :
  let dm := direct_message "urgent hello" in
  let ch := channel_message "urgent hello" in
  let bot := mkMessageEvent (Some "urgent") None (Some "B01")
                            "C123" "U7" "1700000000.000100" in
  (accepted dm = true /\ hasKeyword "urgent hello" = true /\
   lookup_is_im easy (msg_channel dm) = Some true /\
   posted (fst (run (messageEvent dm) easy)) =
     [ ("D42", mkSay (Some (dm_greeting "U7")) []
                     (Some "1700000000.000200")) ] /\
   reactions (fst (run (messageEvent dm) easy)) = []) /\
  (posted (fst (run (messageEvent ch) easy)) = [] /\
   reactions (fst (run (messageEvent ch) easy)) =
     [ ("C123", "eyes", "1700000000.000100");
       ("C123", "warning", "1700000000.000100") ]) /\
  (lookup_is_im easy (msg_channel bot) = Some false /\
   hasKeyword "urgent" = true /\
   reactions (fst (run (messageEvent bot) easy)) = []).
Proof. repeat split. Qed.

(** C2, as the handler has it.  For a message event that passes the guards
    and whose lower-cased text contains one of the keywords:
    - in a channel that is not a direct-message conversation, when no call
      of the run is rejected, the calls are the lookup followed by exactly
      two reactions, "eyes" and "warning", on the channel and timestamp of
      the event, and no message is posted;
    - in a direct-message conversation no reaction is added, whatever the
      reply rules do. *)
Theorem keyword_reactions_only_outside_direct_messages
    (p : Platform) (event : MessageEvent) (text : string) :
  msg_text event = Some text ->
  accepted event = true ->
  hasKeyword text = true ->
  let w := fst (run (messageEvent event) p) in
  (lookup_is_im p (msg_channel event) = Some false ->
   no_failure w = true ->
   calls w =
     [ ConversationsInfo (msg_channel event);
       ReactionsAdd (msg_channel event) "eyes" (msg_ts event);
       ReactionsAdd (msg_channel event) "warning" (msg_ts event) ] /\
   Permutation (reactions w)
     [ (msg_channel event, "warning", msg_ts event);
       (msg_channel event, "eyes", msg_ts event) ] /\
   posted w = []) /\
  (lookup_is_im p (msg_channel event) = Some true ->
   reactions w = []).
Proof.
  intros Ht Hacc Hkw.
  apply accepted_inv in Hacc as (c & s & Ht' & Hs & Hb).
  rewrite Ht in Ht'. injection Ht' as ->.
  cbv zeta. split; intros Him.
  - apply lookup_is_im_inv in Him as (info & Hinfo & Him).
    unfold no_failure, calls, reactions, posted, calls, messageEvent.
    run_handler. rewrite Ht, Hs, Hb. simpl. rewrite Hinfo. simpl.
    rewrite Him, Hkw. simpl.
    split_ifs; intros Hok; try discriminate.
    repeat split. apply perm_swap.
  - apply lookup_is_im_inv in Him as (info & Hinfo & Him).
    unfold reactions, calls, messageEvent.
    run_handler. rewrite Ht, Hs, Hb. simpl. rewrite Hinfo. simpl.
    rewrite Him. simpl.
    split_ifs; reflexivity.
Qed.

Lemma keyword_reactions_only_outside_direct_messages_witness :
  let event := channel_message "Need this ASAP please" in
  let w := fst (run (messageEvent event) easy) in
  calls w =
    [ ConversationsInfo "C123";
      ReactionsAdd "C123" "eyes" "1700000000.000100";
      ReactionsAdd "C123" "warning" "1700000000.000100" ] /\
  Permutation (reactions w)
    [ ("C123", "warning", "1700000000.000100");
      ("C123", "eyes", "1700000000.000100") ] /\
  posted w = [].
Proof.
  apply (@keyword_reactions_only_outside_direct_messages easy
           (channel_message "Need this ASAP please")
           "Need this ASAP please");
    reflexivity.
Defined.

(* ------------------------------------------------------------------ *)
(** ** Opening modals *)

(** With an empty trigger the two handlers still send [views.open] to the
    platform: nothing is checked on the handler's side, the platform's
    rejection is caught and logged. *)
Lemma modal_open_sent_without_trigger :
  let body := mkBody EmptyString in
  run (createTaskShortcut body) strict =
    (mkWorld [ (Ack, true); (ViewsOpen EmptyString task_modal, false) ]
             [ "Error opening task modal:" ] 0,
     Ok tt) /\
  run (viewHelpAction body) strict =
    (mkWorld [ (Ack, true); (ViewsOpen EmptyString help_modal, false) ]
             [ "Error opening help modal:" ] 0,
     Ok tt) /\
  modals (fst (run (viewHelpAction body) easy)) =
    [ (EmptyString, help_modal) ].
Proof. repeat split. Qed.

Ltac case_platform :=
  repeat match goal with
         | |- context [on_ack ?p ?h] =>
             destruct (on_ack p h) eqn:?; simpl
         | |- context [on_conversations_info ?p ?h ?c] =>
             destruct (on_conversations_info p h c) eqn:?; simpl
         | |- context [on_conversations_info_undefined ?p ?h] =>
             destruct (on_conversations_info_undefined p h) eqn:?; simpl
         | |- context [on_conversations_members ?p ?h ?c] =>
             destruct (on_conversations_members p h c) eqn:?; simpl
         | |- context [on_chat_postEphemeral ?p ?h ?c ?u ?b] =>
             destruct (on_chat_postEphemeral p h c u b) eqn:?; simpl
         end.

Lemma channelInfoAction_opens_no_modal
    (p : Platform) (click : ChannelInfoClick) :
  modals (fst (run (channelInfoAction click) p)) = [].
Proof.
  unfold modals, calls, channelInfoAction. run_handler.
  destruct (Js.or_opt (action_value click) (click_channel_id click));
    run_handler; case_platform; reflexivity.
Qed.

(** C3, as the handlers have it.  No handler checks the trigger.  Once the
    acknowledgement went through, the create-task shortcut handler and the
    view-help button handler each issue exactly one [views.open] call
    carrying the trigger of the inbound record as it came, empty or not; the
    handler returns normally whatever the platform answers, and a rejection
    leaves one line on the console.  The channel-info button handler, the
    only other handler of a button or shortcut, opens no modal. *)
Theorem modal_open_passes_trigger_through
    (p : Platform) (body : InteractionBody) (click : ChannelInfoClick) :
  on_ack p [] = true ->
  (let out := run (createTaskShortcut body) p in
   calls (fst out) = [ Ack; ViewsOpen (body_trigger_id body) task_modal ] /\
   snd out = Ok tt /\
   console (fst out) =
     if no_failure (fst out) then [] else [ "Error opening task modal:" ]) /\
  (let out := run (viewHelpAction body) p in
   calls (fst out) = [ Ack; ViewsOpen (body_trigger_id body) help_modal ] /\
   snd out = Ok tt /\
   console (fst out) =
     if no_failure (fst out) then [] else [ "Error opening help modal:" ]) /\
  modals (fst (run (channelInfoAction click) p)) = [].
Proof.
  intros Hack.
  split; [|split; [|apply channelInfoAction_opens_no_modal]];
    cbv zeta; unfold no_failure, calls, createTaskShortcut, viewHelpAction;
    run_handler; rewrite Hack; simpl; split_ifs; repeat split.
Qed.

Lemma modal_open_passes_trigger_through_witness :
  let body := mkBody EmptyString in
  (let out := run (createTaskShortcut body) strict in
   calls (fst out) = [ Ack; ViewsOpen EmptyString task_modal ] /\
   snd out = Ok tt /\
   console (fst out) =
     if no_failure (fst out) then [] else [ "Error opening task modal:" ]) /\
  (let out := run (viewHelpAction body) strict in
   calls (fst out) = [ Ack; ViewsOpen EmptyString help_modal ] /\
   snd out = Ok tt /\
   console (fst out) =
     if no_failure (fst out) then [] else [ "Error opening help modal:" ]) /\
  modals (fst (run (channelInfoAction (mkClick (Some "C123") None "U7"))
                   strict)) = [].
Proof.
  apply (@modal_open_passes_trigger_through strict (mkBody EmptyString)
           (mkClick (Some "C123") None "U7")).
  reflexivity.
Defined.

(* ------------------------------------------------------------------ *)
(** ** Mentions and reply rules *)

(** C8. A mention by user "U2" whose lower-cased text contains "status" and
    not "help" (the only rule declared earlier) gets exactly one posted
    reply, in the channel of the event; its text contains "online" and the
    user mention "<@U2>".  (A text that contains "status" literally
    satisfies the first premise, by [includes_toLowerCase].) *)
Theorem mention_status_reply (p : Platform) (event : AppMentionEvent) :
  mention_user event = "U2" ->
  Js.includes (Js.toLowerCase (mention_text event)) "status" = true ->
  Js.includes (Js.toLowerCase (mention_text event)) "help" = false ->
  exists reply,
    posted (fst (run (appMentionEvent event) p)) =
      [ (mention_channel event,
         mkSay (Some reply) [] (Some (mention_ts event))) ] /\
    Js.includes reply "online" = true /\
    Js.includes reply "<@U2>" = true.
Proof.
  intros Hu Hstatus Hhelp.
  exists (mention_status "U2"). split; [|split; reflexivity].
  unfold posted, calls, appMentionEvent, mention_response.
  rewrite Hu, Hhelp, Hstatus. run_handler.
  split_ifs; reflexivity.
Qed.

Lemma mention_status_reply_witness :
  exists reply,
    posted (fst (run (appMentionEvent
                        (mkAppMentionEvent "<@UBOT> status" "U2" "C123"
                                           "1700000000.000700")) easy)) =
      [ ("C123", mkSay (Some reply) [] (Some "1700000000.000700")) ] /\
    Js.includes reply "online" = true /\
    Js.includes reply "<@U2>" = true.
Proof.
  apply (@mention_status_reply easy
           (mkAppMentionEvent "<@UBOT> status" "U2" "C123"
                              "1700000000.000700"));
    reflexivity.
Defined.

Lemma appMention_posted (p : Platform) (event : AppMentionEvent) :
  posted (fst (run (appMentionEvent event) p)) =
    [ (mention_channel event,
       mkSay (Some (mention_response event)) [] (Some (mention_ts event))) ].
Proof.
  unfold posted, calls, appMentionEvent. run_handler.
  split_ifs; reflexivity.
Qed.

Lemma mention_response_first_match (event : AppMentionEvent) :
  replies_of mention_rules (mention_text event) (mention_user event)
             (mention_channel event) (mention_ts event) =
    [ (mention_channel event,
       mkSay (Some (mention_response event)) [] (Some (mention_ts event))) ].
Proof.
  unfold replies_of, mention_response, mention_rules. simpl.
  split_ifs; reflexivity.
Qed.

Lemma messageEvent_posted_direct
    (p : Platform) (event : MessageEvent) (text : string) :
  msg_text event = Some text ->
  accepted event = true ->
  lookup_is_im p (msg_channel event) = Some true ->
  posted (fst (run (messageEvent event) p)) =
    replies_of dm_rules text (msg_user event) (msg_channel event)
               (msg_ts event).
Proof.
  intros Ht Hacc Him.
  apply accepted_inv in Hacc as (c & s & Ht' & Hs & Hb).
  rewrite Ht in Ht'. injection Ht' as ->.
  apply lookup_is_im_inv in Him as (info & Hinfo & Him).
  unfold replies_of, dm_rules, posted, calls, messageEvent. run_handler.
  rewrite Ht, Hs, Hb. simpl. rewrite Hinfo. simpl. rewrite Him. simpl.
  split_ifs; reflexivity.
Qed.

Lemma messageEvent_posted_at_most_one (p : Platform) (event : MessageEvent) :
  length (posted (fst (run (messageEvent event) p))) <= 1.
Proof.
  unfold posted, calls, messageEvent. run_handler.
  destruct (msg_text event) as [[|c s]|]; simpl; try lia.
  split_ifs; try lia.
  all: destruct (on_conversations_info p [] (msg_channel event)) as [i|];
    simpl; try lia.
  all: split_ifs; lia.
Qed.

(** C6. The reply of a handler is the one the ordered rule list gives under
    first-match-wins over the lower-cased text:
    - the mention handler posts what [first_match] picks from
      [mention_rules] (help, status, thank, default in that order);
    - for a direct message that passes the guards, the message handler
      posts what [first_match] picks from [dm_rules] (hello or hi, help,
      how are you), nothing when no rule matches;
    - either handler posts at most one message for any event and platform;
    - a mention whose text contains both "help" and "status" gets the help
      reply and not the status reply. *)
Theorem replies_first_match_wins (p : Platform) :
  (forall event : AppMentionEvent,
     posted (fst (run (appMentionEvent event) p)) =
       replies_of mention_rules (mention_text event) (mention_user event)
                  (mention_channel event) (mention_ts event)) /\
  (forall (event : MessageEvent) (text : string),
     msg_text event = Some text ->
     accepted event = true ->
     lookup_is_im p (msg_channel event) = Some true ->
     posted (fst (run (messageEvent event) p)) =
       replies_of dm_rules text (msg_user event) (msg_channel event)
                  (msg_ts event)) /\
  (forall event : AppMentionEvent,
     length (posted (fst (run (appMentionEvent event) p))) <= 1) /\
  (forall event : MessageEvent,
     length (posted (fst (run (messageEvent event) p))) <= 1) /\
  (forall event : AppMentionEvent,
     Js.includes (Js.toLowerCase (mention_text event)) "help" = true ->
     Js.includes (Js.toLowerCase (mention_text event)) "status" = true ->
     let w := fst (run (appMentionEvent event) p) in
     posted w =
       [ (mention_channel event,
          mkSay (Some (mention_help (mention_user event))) []
                (Some (mention_ts event))) ] /\
     ~ In (mention_channel event,
           mkSay (Some (mention_status (mention_user event))) []
                 (Some (mention_ts event))) (posted w)).
Proof.
  repeat apply conj.
  - intros event. rewrite appMention_posted.
    symmetry. apply mention_response_first_match.
  - apply messageEvent_posted_direct.
  - intros event. rewrite appMention_posted. simpl. lia.
  - apply messageEvent_posted_at_most_one.
  - intros event Hhelp Hstatus. cbv zeta. rewrite appMention_posted.
    unfold mention_response. rewrite Hhelp. split; [reflexivity|].
    intros [H | []]. injection H as H. discriminate H.
Qed.

Lemma replies_first_match_wins_witness :
  let mention := mkAppMentionEvent "<@UBOT> HELP me with the status" "U2"
                                   "C123" "1700000000.000800" in
  let dm := direct_message "I need help, how are you?" in
  posted (fst (run (appMentionEvent mention) easy)) =
    [ ("C123", mkSay (Some (mention_help "U2")) []
                     (Some "1700000000.000800")) ] /\
  posted (fst (run (messageEvent dm) easy)) =
    [ ("D42", mkSay (Some dm_help) [] (Some "1700000000.000200")) ].
Proof.
  split.
  - exact (proj1 (proj2 (proj2 (proj2 (proj2
             (replies_first_match_wins easy))))
             (mkAppMentionEvent "<@UBOT> HELP me with the status" "U2"
                                "C123" "1700000000.000800")
             eq_refl eq_refl)).
  - exact (proj1 (proj2 (replies_first_match_wins easy))
             (direct_message "I need help, how are you?")
             "I need help, how are you?" eq_refl eq_refl eq_refl).
Defined.

(* ------------------------------------------------------------------ *)
(** ** Threading *)

(** C10. Whatever the event and the platform, every message the message
    handler or the mention handler posts carries the timestamp of the
    inbound event as its [thread_ts], and every reaction the message
    handler adds targets that same timestamp. *)
Theorem replies_and_reactions_target_event_ts (p : Platform) :
  (forall event : MessageEvent,
     let w := fst (run (messageEvent event) p) in
     Forall (fun m => thread_ts (snd m) = Some (msg_ts event)) (posted w) /\
     Forall (fun r => snd r = msg_ts event) (reactions w)) /\
  (forall event : AppMentionEvent,
     let w := fst (run (appMentionEvent event) p) in
     Forall (fun m => thread_ts (snd m) = Some (mention_ts event))
            (posted w)).
Proof.
  split.
  - intros event. cbv zeta.
    unfold posted, reactions, calls, messageEvent. run_handler.
    destruct (msg_text event) as [[|c s]|]; simpl; auto.
    split_ifs; auto.
    all: destruct (on_conversations_info p [] (msg_channel event)) as [i|];
      simpl; auto.
    all: split_ifs; split; repeat constructor.
  - intros event. cbv zeta. rewrite appMention_posted.
    repeat constructor.
Qed.

(* ------------------------------------------------------------------ *)
(** ** The hello command *)

(** With empty command text, user "U1" and a profile named Alice, the
    posted message shows the name, the channel and the word none; the
    identifier "U1" occurs nowhere in it. *)
Lemma hello_post_lacks_user_id :
  let command := mkSlashCommand "U1" "C123" EmptyString in
  let w := fst (run (helloCommand command) easy) in
  exists m,
    posted w = [ ("C123", m) ] /\
    message_texts m =
      [ "Hello *Alice*! 👋";
        "You called the `/hello` command from <#C123>";
        "_Command text: " ++ Js.dquote ++ "none" ++ Js.dquote ++ "_" ] /\
    content_includes m "U1" = false.
Proof. eexists. repeat split. Qed.

Lemma hello_content_greets (userName : string) (command : SlashCommand) :
  content_includes (mkSay None (hello_blocks userName command) None)
                   ("Hello *" ++ userName ++ "*!") = true.
Proof.
  unfold content_includes, message_texts, hello_blocks.
  cbn [say_text say_blocks flat_map block_texts text_of app existsb map].
  replace ("Hello *" ++ userName ++ "*! 👋")
    with (EmptyString ++ ("Hello *" ++ userName ++ "*!") ++ " 👋").
  - rewrite includes_infix. reflexivity.
  - cbn [append]. rewrite !string_app_assoc. reflexivity.
Qed.

Lemma hello_content_shows_none (userName : string) (command : SlashCommand) :
  command_text command = EmptyString ->
  content_includes (mkSay None (hello_blocks userName command) None)
                   ("Command text: " ++ Js.dquote ++ "none" ++ Js.dquote)
    = true.
Proof.
  intros Ht.
  unfold content_includes, message_texts, hello_blocks. rewrite Ht.
  cbn [say_text say_blocks flat_map block_texts text_of app existsb map].
  rewrite !orb_true_iff. right. right. left. reflexivity.
Qed.

Lemma hello_content_user_id (userName : string) (command : SlashCommand) :
  command_text command = EmptyString ->
  content_includes (mkSay None (hello_blocks userName command) None) "U1" =
    Js.includes userName "U1" || Js.includes (channel_id command) "U1".
Proof.
  intros Ht.
  unfold content_includes, message_texts, hello_blocks. rewrite Ht.
  cbn [say_text say_blocks flat_map block_texts text_of app existsb map].
  rewrite (@includes_two_after "U" "1" "Hello *" _ eq_refl).
  rewrite (@includes_two_before "U" "1" userName "*! 👋" eq_refl eq_refl).
  rewrite (@includes_two_after "U" "1"
             "You called the `/hello` command from <#" _ eq_refl).
  rewrite (@includes_two_before "U" "1" (channel_id command) ">"
             eq_refl eq_refl).
  match goal with
  | |- context [Js.includes ?t "U1" || false] =>
      replace (Js.includes t "U1") with false by reflexivity
  end.
  now rewrite !orb_false_r.
Qed.

(** C5, as the handler has it.  For the hello command invoked with empty
    text by user "U1", when no call of the run is rejected: the calls are
    the acknowledgement, one profile lookup for "U1" and exactly one posted
    message, sent to the channel of the command; its content greets the
    display name resolved from the lookup (real name, else name, else
    "there") and shows the command text as none; the content contains
    "U1" exactly when that display name or the channel identifier of the
    command contains it. *)
Theorem hello_empty_text_posts_greeting
    (p : Platform) (command : SlashCommand) (userInfo : option User) :
  user_id command = "U1" ->
  command_text command = EmptyString ->
  on_users_info p [ (Ack, true) ] "U1" = Some userInfo ->
  no_failure (fst (run (helloCommand command) p)) = true ->
  exists m,
    calls (fst (run (helloCommand command) p)) =
      [ Ack; UsersInfo "U1"; ChatPostMessage (channel_id command) m ] /\
    posted (fst (run (helloCommand command) p)) =
      [ (channel_id command, m) ] /\
    content_includes m ("Hello *" ++ hello_userName userInfo ++ "*!") = true /\
    content_includes m ("Command text: " ++ Js.dquote ++ "none" ++ Js.dquote)
      = true /\
    content_includes m "U1" =
      Js.includes (hello_userName userInfo) "U1" ||
      Js.includes (channel_id command) "U1".
Proof.
  intros Hu Ht Hinfo Hok.
  exists (mkSay None (hello_blocks (hello_userName userInfo) command) None).
  split; [|split; [|split; [|split]]].
  3: apply hello_content_greets.
  3: apply hello_content_shows_none; exact Ht.
  3: apply hello_content_user_id; exact Ht.
  all: revert Hok; unfold no_failure, posted, calls, helloCommand;
    run_handler; rewrite Hu;
    (destruct (on_ack p []); simpl; [|discriminate]);
    rewrite Hinfo; simpl; split_ifs; intros Hok;
    try discriminate; reflexivity.
Qed.

Lemma hello_empty_text_posts_greeting_witness :
  let command := mkSlashCommand "U1" "C123" EmptyString in
  exists m,
    calls (fst (run (helloCommand command) easy)) =
      [ Ack; UsersInfo "U1"; ChatPostMessage "C123" m ] /\
    posted (fst (run (helloCommand command) easy)) = [ ("C123", m) ] /\
    content_includes m ("Hello *" ++ "Alice" ++ "*!") = true /\
    content_includes m ("Command text: " ++ Js.dquote ++ "none" ++ Js.dquote)
      = true /\
    content_includes m "U1" =
      Js.includes "Alice" "U1" || Js.includes "C123" "U1".
Proof.
  exact (@hello_empty_text_posts_greeting easy
           (mkSlashCommand "U1" "C123" EmptyString)
           (Some (mkUser (Some "Alice") (Some "alice")))
           eq_refl eq_refl eq_refl eq_refl).
Defined.

(** X16. The ping command is the slash command whose post mentions the caller:
    when the acknowledgement and the post go through, exactly one message is
    posted and its content contains the user mention. *)
Lemma ping_post_mentions_user (p : Platform) (command : SlashCommand) :
  no_failure (fst (run (pingCommand command) p)) = true ->
  exists m,
    posted (fst (run (pingCommand command) p)) = [ (channel_id command, m) ] /\
    content_includes m ("<@" ++ user_id command ++ ">") = true.
Proof.
  unfold no_failure, posted, calls, pingCommand, Date_now. run_handler.
  destruct (on_ack p []); simpl; [|discriminate].
  split_ifs; intros Hok; try discriminate.
  eexists. split; [reflexivity|].
  unfold content_includes, message_texts, ping_blocks.
  cbn [say_text say_blocks flat_map block_texts text_of app existsb map].
  match goal with
  | |- context [Js.includes (_ ++ ?t ++ ?tail) ?sub] =>
      assert (E : Js.includes tail sub = true)
  end.
  { change ("ms | User: <@" ++ user_id command ++ ">")
      with ("ms | User: " ++ "<@" ++ user_id command ++ ">").
    apply includes_app_r, includes_startsWith, startsWith_refl. }
  rewrite (includes_app_r _ _ _ (includes_app_r _ _ _ E)).
  destruct (Js.includes _ _); reflexivity.
Qed.

(* ------------------------------------------------------------------ *)
(** ** Rejected calls *)

(** Two handlers answering a user's own request that send no error notice:
    the help button, whose [catch] only logs, and the ping command, which
    has no [try] at all, so that the rejection is neither logged nor caught
    by the handler. *)
Lemma failure_without_user_notice :
  run (viewHelpAction (mkBody "7788.9900.abcdef")) modal_outage =
    (mkWorld [ (Ack, true);
               (ViewsOpen "7788.9900.abcdef" help_modal, false) ]
             [ "Error opening help modal:" ] 0,
     Ok tt) /\
  (let post := ChatPostMessage "C123"
                 (mkSay None
                        (ping_blocks 1 (mkSlashCommand "U1" "C123"
                                                       EmptyString))
                        None) in
   run (pingCommand (mkSlashCommand "U1" "C123" EmptyString)) post_outage =
     (mkWorld [ (Ack, true); (post, false) ] [] 2, Throw (Rejected post))).
Proof. split; reflexivity. Qed.

Ltac settle_outcome :=
  repeat match goal with
         | |- _ /\ _ => split
         | |- exists _, _ => eexists
         | |- _ = _ => reflexivity
         end.

Lemma messageEvent_logged_and_swallowed
    (p : Platform) (event : MessageEvent) :
  logged_and_swallowed "Error handling message event:"
                       (run (messageEvent event) p).
Proof.
  unfold logged_and_swallowed, messageEvent. run_handler.
  destruct (msg_text event) as [[|c s]|]; simpl; auto.
  split_ifs; auto.
  all: destruct (on_conversations_info p [] (msg_channel event)) as [i|];
    simpl; auto.
  all: split_ifs; settle_outcome.
Qed.

Lemma appMentionEvent_logged_and_swallowed
    (p : Platform) (event : AppMentionEvent) :
  logged_and_swallowed "Error handling app mention:"
                       (run (appMentionEvent event) p).
Proof.
  unfold logged_and_swallowed, appMentionEvent. run_handler.
  split_ifs; settle_outcome.
Qed.

Lemma memberJoined_logged_and_swallowed
    (p : Platform) (event : MemberJoinedEvent) :
  logged_and_swallowed "Error handling member joined event:"
                       (run (memberJoinedChannelEvent event) p).
Proof.
  unfold logged_and_swallowed, memberJoinedChannelEvent. run_handler.
  destruct (on_users_info p [] (joined_user event)) as [u|]; simpl;
    [|settle_outcome].
  match goal with
  | |- context [on_conversations_info p ?h ?c] =>
      destruct (on_conversations_info p h c) as [i|]; simpl
  end; [|settle_outcome].
  split_ifs; settle_outcome.
Qed.

Lemma channelInfoAction_logged_and_swallowed
    (p : Platform) (click : ChannelInfoClick) :
  on_ack p [] = true ->
  logged_and_swallowed "Error handling channel info action:"
                       (run (channelInfoAction click) p).
Proof.
  intros Hack.
  unfold logged_and_swallowed, channelInfoAction. run_handler.
  rewrite Hack. simpl.
  destruct (Js.or_opt (action_value click) (click_channel_id click));
    run_handler; case_platform; settle_outcome.
Qed.

Lemma helloCommand_logged_and_noticed
    (p : Platform) (command : SlashCommand) :
  on_ack p [] = true ->
  logged_and_noticed "Error in hello command:"
    (ChatPostMessage (channel_id command)
       (mkSay (Some "Sorry, something went wrong with the hello command.")
              [] None))
    (run (helloCommand command) p).
Proof.
  intros Hack.
  unfold logged_and_noticed, helloCommand. run_handler. rewrite Hack. simpl.
  match goal with
  | |- context [on_users_info p ?h ?u] =>
      destruct (on_users_info p h u) as [i|]; simpl
  end.
  - match goal with
    | |- context [on_chat_postMessage p ?h ?c ?m] =>
        destruct (on_chat_postMessage p h c m); simpl
    end; [settle_outcome|].
    split_ifs; settle_outcome.
  - split_ifs; settle_outcome.
Qed.

(** C4, as the handlers have it.  In the handlers that wrap their calls in
    [try]/[catch], the first rejected call ends the [try] block and writes
    exactly one line to the console:
    - the message, mention and member-joined event handlers then return
      normally, nothing further being sent;
    - so do the help button handler, the create-task shortcut handler and
      the channel-info button handler, once their acknowledgement went
      through: no notice to the user;
    - the hello command, once acknowledged, attempts exactly one notice
      (the apology sent with [say]) and returns normally if that notice is
      accepted.
    When no call is rejected the console stays empty. *)
Theorem rejected_calls_are_logged (p : Platform) :
  (forall event : MessageEvent,
     logged_and_swallowed "Error handling message event:"
                          (run (messageEvent event) p)) /\
  (forall event : AppMentionEvent,
     logged_and_swallowed "Error handling app mention:"
                          (run (appMentionEvent event) p)) /\
  (forall event : MemberJoinedEvent,
     logged_and_swallowed "Error handling member joined event:"
                          (run (memberJoinedChannelEvent event) p)) /\
  (on_ack p [] = true ->
   (forall body : InteractionBody,
      logged_and_swallowed "Error opening help modal:"
                           (run (viewHelpAction body) p)) /\
   (forall body : InteractionBody,
      logged_and_swallowed "Error opening task modal:"
                           (run (createTaskShortcut body) p)) /\
   (forall click : ChannelInfoClick,
      logged_and_swallowed "Error handling channel info action:"
                           (run (channelInfoAction click) p)) /\
   (forall command : SlashCommand,
      logged_and_noticed "Error in hello command:"
        (ChatPostMessage (channel_id command)
           (mkSay (Some "Sorry, something went wrong with the hello command.")
                  [] None))
        (run (helloCommand command) p))).
Proof.
  split; [exact (messageEvent_logged_and_swallowed p)|].
  split; [exact (appMentionEvent_logged_and_swallowed p)|].
  split; [exact (memberJoined_logged_and_swallowed p)|].
  intros Hack. repeat apply conj.
  - intros body. unfold logged_and_swallowed, viewHelpAction. run_handler.
    rewrite Hack. simpl. split_ifs; settle_outcome.
  - intros body. unfold logged_and_swallowed, createTaskShortcut. run_handler.
    rewrite Hack. simpl. split_ifs; settle_outcome.
  - intros click. apply channelInfoAction_logged_and_swallowed, Hack.
  - intros command. apply helloCommand_logged_and_noticed, Hack.
Qed.

Lemma rejected_calls_are_logged_witness :
  let body := mkBody "7788.9900.abcdef" in
  let command := mkSlashCommand "U1" "C123" "hi" in
  (after_first_failure (trace (fst (run (viewHelpAction body) modal_outage)))
     = Some [] /\
   logged_and_swallowed "Error opening help modal:"
                        (run (viewHelpAction body) modal_outage)) /\
  (after_first_failure (trace (fst (run (helloCommand command) lookup_outage)))
     = Some [ (ChatPostMessage "C123"
                 (mkSay (Some "Sorry, something went wrong with the hello command.")
                        [] None), true) ] /\
   logged_and_noticed "Error in hello command:"
     (ChatPostMessage "C123"
        (mkSay (Some "Sorry, something went wrong with the hello command.")
               [] None))
     (run (helloCommand command) lookup_outage)).
Proof.
  split; (split; [reflexivity|]).
  - exact (proj1 (proj2 (proj2 (proj2 (rejected_calls_are_logged modal_outage)))
                   eq_refl)
             (mkBody "7788.9900.abcdef")).
  - exact (proj2 (proj2 (proj2 (proj2 (proj2 (proj2
             (rejected_calls_are_logged lookup_outage))) eq_refl)))
             (mkSlashCommand "U1" "C123" "hi")).
Defined.

(* ------------------------------------------------------------------ *)
(** ** The message handler: shape of every run *)

Lemma accepted_false_cases (event : MessageEvent) :
  accepted event = false ->
  Js.truthy (msg_text event) = false \/
  Js.truthy (msg_subtype event) = true \/
  Js.truthy (msg_bot_id event) = true.
Proof.
  unfold accepted.
  destruct (Js.truthy (msg_text event)),
           (Js.truthy (msg_subtype event)),
           (Js.truthy (msg_bot_id event)); simpl; auto; discriminate.
Qed.

Lemma messageEvent_drops_empty_text_aux
    (p : Platform) (event : MessageEvent) :
  Js.truthy (msg_text event) = false ->
  run (messageEvent event) p = (world0, Ok tt).
Proof.
  intros H. apply truthy_false_cases in H.
  unfold messageEvent. run_handler.
  destruct H as [-> | ->]; reflexivity.
Qed.

Lemma messageEvent_drops_guarded_aux
    (p : Platform) (event : MessageEvent) :
  Js.truthy (msg_subtype event) = true \/
  Js.truthy (msg_bot_id event) = true ->
  run (messageEvent event) p = (world0, Ok tt).
Proof.
  intros H. unfold messageEvent. run_handler.
  destruct (msg_text event) as [[|c s]|]; try reflexivity.
  destruct (Js.truthy (msg_subtype event)); try reflexivity.
  destruct (Js.truthy (msg_bot_id event)); try reflexivity.
  destruct H; discriminate.
Qed.

(** Every trace the message handler can leave, for any event and platform:
    nothing; the lookup alone (rejected or accepted); the lookup and one
    post; the lookup and a rejected "eyes"; the lookup, "eyes" and
    "warning". *)
Lemma messageEvent_trace_shape (p : Platform) (event : MessageEvent) :
  let w := fst (run (messageEvent event) p) in
  let ch := msg_channel event in
  let ts := msg_ts event in
  (accepted event = false /\ trace w = []) \/
  (accepted event = true /\
   (trace w = [ (ConversationsInfo ch, false) ] \/
    trace w = [ (ConversationsInfo ch, true) ] \/
    (exists m b, trace w = [ (ConversationsInfo ch, true);
                             (ChatPostMessage ch m, b) ]) \/
    trace w = [ (ConversationsInfo ch, true);
                (ReactionsAdd ch "eyes" ts, false) ] \/
    (exists b, trace w = [ (ConversationsInfo ch, true);
                           (ReactionsAdd ch "eyes" ts, true);
                           (ReactionsAdd ch "warning" ts, b) ]))).
Proof.
  cbv zeta.
  destruct (accepted event) eqn:Hacc.
  - right. split; [reflexivity|].
    apply accepted_inv in Hacc as (c & s & Ht & Hs & Hb).
    unfold messageEvent. run_handler. rewrite Ht, Hs, Hb. simpl.
    destruct (on_conversations_info p [] (msg_channel event)) as [i|];
      simpl; [|auto].
    split_ifs; eauto 10.
  - left. split; [reflexivity|].
    apply accepted_false_cases in Hacc as [H | H].
    + now rewrite messageEvent_drops_empty_text_aux.
    + now rewrite messageEvent_drops_guarded_aux.
Qed.

Ltac use_shape H :=
  destruct H as [[Hacc Htr] |
    [Hacc [Htr | [Htr | [(m & b & Htr) | [Htr | (b & Htr)]]]]]].

(** X1. The message handler issues a call exactly when the event passes the
    three guards; the first call is then the lookup of the event's channel,
    it is the only lookup of the run, and at most two calls follow it. *)
Theorem messageEvent_lookup_iff_accepted
    (p : Platform) (event : MessageEvent) :
  let w := fst (run (messageEvent event) p) in
  (calls w = [] <-> accepted event = false) /\
  (accepted event = true ->
   exists rest,
     calls w = ConversationsInfo (msg_channel event) :: rest /\
     ~ In (ConversationsInfo (msg_channel event)) rest /\
     length rest <= 2).
Proof.
  cbv zeta. pose proof (messageEvent_trace_shape p event) as H.
  cbv zeta in H. unfold calls.
  use_shape H; rewrite Htr, Hacc; simpl.
  all: split; [split; intros; congruence|].
  all: intros Ha; try discriminate Ha.
  all: eexists; split; [reflexivity|]; simpl; split; [|lia].
  all: intros F; repeat destruct F as [F | F]; try discriminate; exact F.
Qed.

Lemma messageEvent_lookup_iff_accepted_witness :
  exists rest,
    calls (fst (run (messageEvent (channel_message "see you")) easy)) =
      ConversationsInfo "C123" :: rest /\
    ~ In (ConversationsInfo "C123") rest /\
    length rest <= 2.
Proof.
  exact (proj2 (messageEvent_lookup_iff_accepted easy
                  (channel_message "see you")) eq_refl).
Defined.

(** X2. No run of the message handler both posts a message and adds a
    reaction, and no run issues more than three calls. *)
Theorem messageEvent_reply_or_reaction_never_both
    (p : Platform) (event : MessageEvent) :
  let w := fst (run (messageEvent event) p) in
  (posted w = [] \/ reactions w = []) /\ length (calls w) <= 3.
Proof.
  cbv zeta. pose proof (messageEvent_trace_shape p event) as H.
  cbv zeta in H. unfold posted, reactions, calls.
  use_shape H; rewrite Htr; simpl; split; auto; lia.
Qed.

(** X3. In every run of the message handler a message is posted or a
    reaction added only after the channel lookup was accepted, and the
    "warning" reaction is attempted only after the "eyes" reaction was
    accepted. *)
Theorem messageEvent_calls_in_order
    (p : Platform) (event : MessageEvent) :
  let w := fst (run (messageEvent event) p) in
  let ch := msg_channel event in
  (forall c b, In (c, b) (trace w) -> c <> ConversationsInfo ch ->
               In (ConversationsInfo ch, true) (trace w)) /\
  (forall b, In (ReactionsAdd ch "warning" (msg_ts event), b) (trace w) ->
             In (ReactionsAdd ch "eyes" (msg_ts event), true) (trace w)).
Proof.
  cbv zeta. pose proof (messageEvent_trace_shape p event) as H.
  cbv zeta in H.
  use_shape H; rewrite Htr; simpl; split.
  all: try (intros c0 b0 F; repeat destruct F as [F | F];
            try contradiction; try (injection F as <- <-);
            intros Hne; try congruence; auto).
  all: intros b0 F; repeat destruct F as [F | F];
    try contradiction; try discriminate; auto.
Qed.

Lemma messageEvent_calls_in_order_witness :
  let event := channel_message "urgent" in
  let w := fst (run (messageEvent event) easy) in
  In (ConversationsInfo "C123", true) (trace w) /\
  In (ReactionsAdd "C123" "eyes" "1700000000.000100", true) (trace w).
Proof.
  split.
  - apply (proj1 (messageEvent_calls_in_order easy (channel_message "urgent"))
             (ReactionsAdd "C123" "eyes" "1700000000.000100") true).
    + simpl. auto.
    + discriminate.
  - apply (proj2 (messageEvent_calls_in_order easy (channel_message "urgent"))
             true).
    simpl. auto.
Defined.

(** X4. An accepted message that matches no rule is answered with silence:
    in a channel without any of the keywords, and in a direct message whose
    lower-cased text contains none of "hello", "hi", "help", "how are you",
    the lookup is the only call, nothing is logged and the handler returns
    normally. *)
Theorem messageEvent_silent_without_match
    (p : Platform) (event : MessageEvent) (text : string) :
  msg_text event = Some text ->
  accepted event = true ->
  (lookup_is_im p (msg_channel event) = Some false /\
   hasKeyword text = false) \/
  (lookup_is_im p (msg_channel event) = Some true /\
   Js.includes (Js.toLowerCase text) "hello" = false /\
   Js.includes (Js.toLowerCase text) "hi" = false /\
   Js.includes (Js.toLowerCase text) "help" = false /\
   Js.includes (Js.toLowerCase text) "how are you" = false) ->
  run (messageEvent event) p =
    (mkWorld [ (ConversationsInfo (msg_channel event), true) ] [] 0, Ok tt).
Proof.
  intros Ht Hacc Hcase.
  apply accepted_inv in Hacc as (c & s & Ht' & Hs & Hb).
  rewrite Ht in Ht'. injection Ht' as ->.
  unfold messageEvent. run_handler. rewrite Ht, Hs, Hb. simpl.
  destruct Hcase as [[Him Hkw] | (Him & H1 & H2 & H3 & H4)];
    apply lookup_is_im_inv in Him as (info & Hinfo & Him);
    rewrite Hinfo; simpl; rewrite Him.
  - rewrite Hkw. reflexivity.
  - rewrite H1, H2, H3, H4. reflexivity.
Qed.

Lemma messageEvent_silent_without_match_witness :
  run (messageEvent (channel_message "lunch at noon?")) easy =
    (mkWorld [ (ConversationsInfo "C123", true) ] [] 0, Ok tt) /\
  run (messageEvent (direct_message "lunch at noon?")) easy =
    (mkWorld [ (ConversationsInfo "D42", true) ] [] 0, Ok tt).
Proof.
  split.
  - apply (@messageEvent_silent_without_match easy
             (channel_message "lunch at noon?") "lunch at noon?");
      try reflexivity.
    left. split; reflexivity.
  - apply (@messageEvent_silent_without_match easy
             (direct_message "lunch at noon?") "lunch at noon?");
      try reflexivity.
    right. repeat split; reflexivity.
Defined.

(* ------------------------------------------------------------------ *)
(** ** Letter case *)



(** X6. The keyword scan fires on any letter-case variant of a keyword,
    anywhere in the text: if the text contains a string whose lower-cased
    form is one of the four keywords, [hasKeyword] holds. *)
Theorem hasKeyword_any_case (text variant : string) :
  In (Js.toLowerCase variant) keywords ->
  Js.includes text variant = true ->
  hasKeyword text = true.
Proof.
  intros Hin Hinc. unfold hasKeyword.
  apply existsb_exists. exists (Js.toLowerCase variant).
  split; [exact Hin|]. apply includes_toLowerCase; [|exact Hinc].
  apply all_plain_of_lowered;
    destruct Hin as [<- | [<- | [<- | [<- | []]]]]; reflexivity.
Qed.

Lemma hasKeyword_any_case_witness :
  hasKeyword "prod is down - EmErGeNcY!!" = true.
Proof.
  apply (@hasKeyword_any_case "prod is down - EmErGeNcY!!" "EmErGeNcY").
  - simpl. auto.
  - reflexivity.
Defined.

(* ------------------------------------------------------------------ *)
(** ** The mention handler: always one reply *)

Lemma includes_user_mention (before user rest : string) :
  Js.includes (before ++ "<@" ++ user ++ ">" ++ rest)
              ("<@" ++ user ++ ">") = true.
Proof.
  replace (before ++ "<@" ++ user ++ ">" ++ rest)
    with (before ++ ("<@" ++ user ++ ">") ++ rest).
  - apply includes_infix.
  - now rewrite !string_app_assoc.
Qed.

Lemma mention_response_names_user (event : AppMentionEvent) :
  Js.includes (mention_response event)
              ("<@" ++ mention_user event ++ ">") = true.
Proof.
  unfold mention_response. simpl. split_ifs.
  - apply (includes_user_mention "Hi " (mention_user event)).
  - apply (includes_user_mention "I'm online and ready to help, "
                                 (mention_user event)).
  - apply (includes_user_mention "You're welcome, " (mention_user event)).
  - apply (includes_user_mention "Hi " (mention_user event)).
Qed.

(** X7. The mention handler is never silent: for every mention and every
    platform the run is exactly one post, sent to the channel of the
    mention and threaded on it, whose text names the user who mentioned the
    bot; the handler returns normally, and the console has a line exactly
    when the post was rejected. *)
Theorem appMentionEvent_always_one_reply
    (p : Platform) (event : AppMentionEvent) :
  exists reply ok,
    run (appMentionEvent event) p =
      (mkWorld [ (ChatPostMessage (mention_channel event)
                    (mkSay (Some reply) [] (Some (mention_ts event))), ok) ]
               (if ok then [] else [ "Error handling app mention:" ]) 0,
       Ok tt) /\
    Js.includes reply ("<@" ++ mention_user event ++ ">") = true.
Proof.
  exists (mention_response event).
  exists (on_chat_postMessage p [] (mention_channel event)
            (mkSay (Some (mention_response event)) []
                   (Some (mention_ts event)))).
  split; [|apply mention_response_names_user].
  unfold appMentionEvent. run_handler. split_ifs; reflexivity.
Qed.

(* ------------------------------------------------------------------ *)
(** ** Display names *)

Lemma or_else_nonempty (a : option string) (b : string) :
  b <> EmptyString -> Js.or_else a b <> EmptyString.
Proof.
  intros Hb. destruct a as [[|c s]|]; simpl; auto. discriminate.
Qed.

(** X8. The names shown in the greeting and in the welcome message are
    never empty, whatever the lookups answered: a missing profile, a
    missing or empty [real_name] and [name], a missing channel or channel
    name all end in the fallback word. *)
Theorem display_names_never_empty
    (userInfo : option User) (channelInfo : option Channel) :
  hello_userName userInfo <> EmptyString /\
  joined_userName userInfo <> EmptyString /\
  joined_channelName channelInfo <> EmptyString.
Proof.
  repeat split.
  - destruct userInfo as [u|]; simpl; [|discriminate].
    apply or_else_nonempty. discriminate.
  - destruct userInfo as [u|]; simpl; [|discriminate].
    apply or_else_nonempty. discriminate.
  - destruct channelInfo as [c|]; simpl; [|discriminate].
    apply or_else_nonempty. discriminate.
Qed.

(* ------------------------------------------------------------------ *)
(** ** Acknowledgement and handlers without a catch *)

(** X9. The three slash commands, the shortcut handler and the button
    handler acknowledge before any other call; if the acknowledgement is
    rejected the run stops there: no other call, no console line, and the
    rejection leaves the handler uncaught. *)
Theorem handlers_acknowledge_first (p : Platform) :
  (forall command, acknowledges_first p (run (helloCommand command) p)) /\
  (forall command, acknowledges_first p (run (helpCommand command) p)) /\
  (forall command, acknowledges_first p (run (pingCommand command) p)) /\
  (forall body, acknowledges_first p (run (createTaskShortcut body) p)) /\
  (forall body, acknowledges_first p (run (viewHelpAction body) p)).
Proof.
  unfold acknowledges_first.
  repeat apply conj; intros x;
    unfold helloCommand, helpCommand, pingCommand, createTaskShortcut,
           viewHelpAction, Date_now;
    run_handler.
  all: destruct (on_ack p []) eqn:Hack; simpl.
  all: try (eexists; split; [reflexivity|]; intros F;
            first [discriminate F | repeat split]).
  - destruct (on_users_info p [ (Ack, true) ] (user_id x)) as [i|]; simpl;
      split_ifs; eexists; (split; [reflexivity | discriminate]).
  - split_ifs; eexists; (split; [reflexivity | discriminate]).
  - split_ifs; eexists; (split; [reflexivity | discriminate]).
  - split_ifs; eexists; (split; [reflexivity | discriminate]).
  - split_ifs; eexists; (split; [reflexivity | discriminate]).
Qed.

Lemma handlers_acknowledge_first_witness :
  let deaf := mkPlatform (fun _ => false) (on_users_info easy)
                (on_conversations_info easy) (on_chat_postMessage easy)
                (on_reactions_add easy) (on_views_open easy) (now easy)
                (on_conversations_info_undefined easy)
                (on_conversations_members easy) (on_chat_postEphemeral easy)
                (toLocaleDateString easy) in
  run (helloCommand (mkSlashCommand "U1" "C123" "hey")) deaf =
    (mkWorld [ (Ack, false) ] [] 0, Throw (Rejected Ack)).
Proof.
  cbv zeta.
  destruct (proj1 (handlers_acknowledge_first
             (mkPlatform (fun _ => false) (on_users_info easy)
                (on_conversations_info easy) (on_chat_postMessage easy)
                (on_reactions_add easy) (on_views_open easy) (now easy)
                (on_conversations_info_undefined easy)
                (on_conversations_members easy) (on_chat_postEphemeral easy)
                (toLocaleDateString easy)))
             (mkSlashCommand "U1" "C123" "hey")) as (rest & Htr & Hrej).
  destruct (Hrej eq_refl) as (-> & Hc & Hr).
  reflexivity.
Defined.

(** X10. The ping and help commands have no [catch]: they never write to
    the console, and a rejected call (the acknowledgement or the post) is
    the last call of the run and is what the handler's promise rejects
    with.  Each posts at most one message. *)
Theorem ping_and_help_propagate_rejections
    (p : Platform) (command : SlashCommand) :
  (rejection_propagates (run (pingCommand command) p) /\
   length (posted (fst (run (pingCommand command) p))) <= 1) /\
  (rejection_propagates (run (helpCommand command) p) /\
   length (posted (fst (run (helpCommand command) p))) <= 1).
Proof.
  unfold rejection_propagates, posted, calls, pingCommand, helpCommand,
         Date_now.
  run_handler.
  destruct (on_ack p []); simpl.
  - split; split_ifs; simpl; repeat split; try lia; eauto 6.
  - repeat split; try lia; eauto 6.
Qed.

Lemma ping_post_mentions_user_witness :
  exists m,
    posted (fst (run (pingCommand (mkSlashCommand "U1" "C123" EmptyString))
                     easy)) = [ ("C123", m) ] /\
    content_includes m ("<@" ++ "U1" ++ ">") = true.
Proof.
  exact (@ping_post_mentions_user easy
           (mkSlashCommand "U1" "C123" EmptyString) eq_refl).
Defined.

(* ------------------------------------------------------------------ *)
(** ** The member-joined handler *)


(** X11. The welcome is posted exactly when both lookups are accepted, the
    user's profile first and the channel second; it goes to the joined
    channel, unthreaded, with the two names resolved from the lookups.  A
    rejected profile lookup ends the run before the channel lookup, a
    rejected channel lookup ends it before the post. *)
Theorem memberJoined_welcome_needs_both_lookups
    (p : Platform) (event : MemberJoinedEvent) :
  let w := fst (run (memberJoinedChannelEvent event) p) in
  let user := joined_user event in
  let ch := joined_channel event in
  match on_users_info p [] user with
  | None => calls w = [ UsersInfo user ]
  | Some u =>
      match on_conversations_info p [ (UsersInfo user, true) ] ch with
      | None => calls w = [ UsersInfo user; ConversationsInfo ch ]
      | Some c =>
          calls w =
            [ UsersInfo user; ConversationsInfo ch;
              ChatPostMessage ch
                (mkSay None
                   (welcome_blocks (joined_channelName c) (joined_userName u)
                                   ch)
                   None) ]
      end
  end.
Proof.
  cbv zeta. unfold calls, memberJoinedChannelEvent. run_handler.
  destruct (on_users_info p [] (joined_user event)) as [u|]; simpl;
    [|reflexivity].
  destruct (on_conversations_info p [ (UsersInfo (joined_user event), true) ]
              (joined_channel event)) as [c|]; simpl; [|reflexivity].
  split_ifs; reflexivity.
Qed.

(* ------------------------------------------------------------------ *)
(** ** Where the handlers write *)


(* ------------------------------------------------------------------ *)
(** ** Registries against what the handlers send *)

Lemma registered_app (kind : ListenerKind) (a b : App) :
  registered kind (a ++ b)%list =
  (registered kind a ++ registered kind b)%list.
Proof.
  unfold registered. now rewrite filter_app, map_app.
Qed.

Lemma registerListeners_registered (kind : ListenerKind) (app : App) :
  registered kind (registerListeners app) =
  (registered kind app ++ registered kind (registerListeners []))%list.
Proof.
  unfold registerListeners, registerShortcuts, registerActions,
         registerEvents, registerCommands,
         app_shortcut, app_action, app_event, app_command.
  rewrite !registered_app. simpl. rewrite <- !app_assoc. reflexivity.
Qed.

Lemma memberJoined_welcome_shape (p : Platform) (event : MemberJoinedEvent) :
  let w := fst (run (memberJoinedChannelEvent event) p) in
  posted w = [] \/
  exists channelName userName,
    posted w =
      [ (joined_channel event,
         mkSay None
               (welcome_blocks channelName userName (joined_channel event))
               None) ].
Proof.
  cbv zeta. unfold posted, calls, memberJoinedChannelEvent. run_handler.
  destruct (on_users_info p [] (joined_user event)) as [u|]; simpl; auto.
  destruct (on_conversations_info p [ (UsersInfo (joined_user event), true) ]
              (joined_channel event)) as [c|]; simpl; auto.
  split_ifs; eauto.
Qed.

(** X13. Every button of a welcome message has a listener: whatever the
    event and the platform, each [action_id] carried by a button of a
    message posted by the member-joined handler is registered as an action
    by [registerListeners], whatever was registered before. *)
Theorem welcome_buttons_are_registered
    (p : Platform) (event : MemberJoinedEvent) (app : App)
    (channel : string) (m : SayArguments) (id : string) :
  In (channel, m) (posted (fst (run (memberJoinedChannelEvent event) p))) ->
  In id (message_button_ids m) ->
  In id (registered ActionListener (registerListeners app)).
Proof.
  intros Hm Hid.
  rewrite registerListeners_registered. apply in_or_app. right.
  pose proof (memberJoined_welcome_shape p event) as H.
  destruct H as [H | (cn & un & H)]; rewrite H in Hm; simpl in Hm.
  - contradiction.
  - destruct Hm as [Hm | []]. injection Hm as <- <-.
    simpl in Hid. simpl. tauto.
Qed.

Lemma welcome_buttons_are_registered_witness :
  In "channel_info" (registered ActionListener (registerListeners [])) /\
  In "view_help" (registered ActionListener (registerListeners [])).
Proof.
  split.
  - apply (@welcome_buttons_are_registered easy (mkMemberJoined "U9" "C123")
             [] "C123"
             (mkSay None (welcome_blocks "the channel" "Alice" "C123") None)
             "channel_info").
    + simpl. auto.
    + simpl. auto.
  - apply (@welcome_buttons_are_registered easy (mkMemberJoined "U9" "C123")
             [] "C123"
             (mkSay None (welcome_blocks "the channel" "Alice" "C123") None)
             "view_help").
    + simpl. auto.
    + simpl. auto.
Defined.

(** X14. Every help text lists every slash command: each command name
    that [registerListeners] registers on a fresh application occurs in the
    post of the help command, in the help reply to a mention (for any
    user), in the help reply to a direct message and in the help modal. *)
Theorem help_texts_list_registered_commands (name user : string) :
  In name (registered CommandListener (registerListeners [])) ->
  mentioned_in (message_texts (mkSay None help_blocks None)) name = true /\
  Js.includes (mention_help user) name = true /\
  Js.includes dm_help name = true /\
  mentioned_in (view_texts help_modal) name = true.
Proof.
  simpl. intros [<- | [<- | [<- | []]]].
  all: repeat split; try reflexivity.
  all: unfold mention_help; apply includes_app_r, includes_app_r;
    reflexivity.
Qed.

Lemma help_texts_list_registered_commands_witness :
  mentioned_in (message_texts (mkSay None help_blocks None)) "/ping" = true /\
  Js.includes (mention_help "U2") "/ping" = true /\
  Js.includes dm_help "/ping" = true /\
  mentioned_in (view_texts help_modal) "/ping" = true.
Proof.
  apply (@help_texts_list_registered_commands "/ping" "U2").
  simpl. auto.
Defined.

(** X15. [registerListeners] adds no listener for modal submissions: the
    view listeners are those the application had before, so on a fresh
    application the [callback_id] of the task modal opened by the
    create-task shortcut has no listener, while the shortcut itself and
    both button actions have one. *)
Theorem task_modal_submission_has_no_listener (app : App) :
  registered ViewListener (registerListeners app) =
    registered ViewListener app /\
  (forall id, callback_id task_modal = Some id ->
              ~ In id (registered ViewListener (registerListeners []))) /\
  registered ShortcutListener (registerListeners []) = [ "create_task" ] /\
  registered ActionListener (registerListeners []) =
    [ "channel_info"; "view_help" ].
Proof.
  repeat split.
  - rewrite registerListeners_registered. simpl. apply app_nil_r.
  - intros id _ F. exact F.
Qed.

(* ------------------------------------------------------------------ *)
(** ** Lookup answers without the flag *)

(** X17. Only an explicit [is_im: true] makes a direct message.  When the
    lookup is accepted but its answer has no [channel], or a channel with
    no [is_im] flag or with [is_im: false], an accepted message is treated
    as a channel message: no reply is posted whatever the text says, and
    the reactions depend on the keywords alone. *)
Theorem messageEvent_without_is_im_flag_is_channel
    (p : Platform) (event : MessageEvent) (text : string)
    (info : option Channel) :
  msg_text event = Some text ->
  accepted event = true ->
  on_conversations_info p [] (msg_channel event) = Some info ->
  (forall c, info = Some c -> is_im c <> Some true) ->
  let w := fst (run (messageEvent event) p) in
  posted w = [] /\
  (reactions w <> [] <-> hasKeyword text = true).
Proof.
  intros Ht Hacc Hinfo Hflag.
  assert (Him : channel_is_im info = false).
  { destruct info as [c|]; [|reflexivity].
    specialize (Hflag c eq_refl). simpl.
    destruct (is_im c) as [[]|]; try reflexivity. congruence. }
  apply accepted_inv in Hacc as (c & s & Ht' & Hs & Hb).
  rewrite Ht in Ht'. injection Ht' as ->.
  cbv zeta. unfold posted, reactions, calls, messageEvent. run_handler.
  rewrite Ht, Hs, Hb. simpl. rewrite Hinfo. simpl. rewrite Him.
  destruct (hasKeyword (String c s)); simpl.
  - split_ifs; (split; [reflexivity|]); split; intros; congruence.
  - split; [reflexivity|]. split; intros; congruence.
Qed.

Lemma messageEvent_without_is_im_flag_is_channel_witness :
  let flagless := mkPlatform (on_ack easy) (on_users_info easy)
                    (fun _ _ => Some (Some (mkChannel None (Some "general")
                                                       None None None)))
                    (on_chat_postMessage easy) (on_reactions_add easy)
                    (on_views_open easy) (now easy)
                    (on_conversations_info_undefined easy)
                    (on_conversations_members easy)
                    (on_chat_postEphemeral easy) (toLocaleDateString easy) in
  let w := fst (run (messageEvent (direct_message "hello, this is urgent"))
                    flagless) in
  posted w = [] /\
  (reactions w <> [] <-> hasKeyword "hello, this is urgent" = true).
Proof.
  apply (@messageEvent_without_is_im_flag_is_channel
           (mkPlatform (on_ack easy) (on_users_info easy)
              (fun _ _ => Some (Some (mkChannel None (Some "general")
                                                 None None None)))
              (on_chat_postMessage easy) (on_reactions_add easy)
              (on_views_open easy) (now easy)
              (on_conversations_info_undefined easy)
              (on_conversations_members easy)
              (on_chat_postEphemeral easy) (toLocaleDateString easy))
           (direct_message "hello, this is urgent")
           "hello, this is urgent"
           (Some (mkChannel None (Some "general") None None None)));
    try reflexivity.
  intros c [= <-]. discriminate.
Defined.

(* ------------------------------------------------------------------ *)
(** ** The channel-info button *)

(** X18. The channel-info handler asks about the channel the button
    carries: when the [value] of the action is a non-empty string and no
    call of the run is rejected, the calls are the acknowledgement, the
    lookup and the member list of that channel, and one ephemeral message
    in that channel to the user who clicked; the channel the click came
    from is not used, and nothing is posted with [chat.postMessage]. *)
Theorem channelInfoAction_uses_button_value
    (p : Platform) (click : ChannelInfoClick) (value : string) :
  action_value click = Some value ->
  value <> EmptyString ->
  no_failure (fst (run (channelInfoAction click) p)) = true ->
  exists info members,
    calls (fst (run (channelInfoAction click) p)) =
      [ Ack; ConversationsInfo value; ConversationsMembers (Some value);
        ChatPostEphemeral (Some value) (click_user_id click)
          (channel_info_blocks info members
             (toLocaleDateString p (created_ms info))) ] /\
    posted (fst (run (channelInfoAction click) p)) = [].
Proof.
  intros Hv Hne.
  assert (Hid : Js.or_opt (action_value click) (click_channel_id click)
                = Some value).
  { rewrite Hv. destruct value; [congruence | reflexivity]. }
  unfold no_failure, posted, calls, channelInfoAction. run_handler.
  rewrite Hid. run_handler. case_platform; intros Hok; try discriminate.
  eexists. eexists. split; reflexivity.
Qed.

Lemma channelInfoAction_uses_button_value_witness :
  exists info members,
    calls (fst (run (channelInfoAction
                       (mkClick (Some "C123") (Some "C9") "U7")) easy)) =
      [ Ack; ConversationsInfo "C123"; ConversationsMembers (Some "C123");
        ChatPostEphemeral (Some "C123") "U7"
          (channel_info_blocks info members
             (toLocaleDateString easy (created_ms info))) ] /\
    posted (fst (run (channelInfoAction
                        (mkClick (Some "C123") (Some "C9") "U7")) easy)) = [].
Proof.
  apply (@channelInfoAction_uses_button_value easy
           (mkClick (Some "C123") (Some "C9") "U7") "C123").
  - reflexivity.
  - discriminate.
  - reflexivity.
Defined.
